(** * Mercari listing normalizer and search client: a shallow embedding

    The development follows the two Python modules of the repository,
    [marketplace_integrations/mercari_normalizer.py] and
    [marketplace_integrations/mercari_search.py].

    Raw listings are Python dictionaries decoded from JSON, so values are
    modelled by the JSON fragment of Python's object universe ([pyval]):
    [None], booleans, unbounded integers, binary64 floats, text, lists and
    string-keyed dictionaries.  Text is a sequence of code points below 256
    (Latin-1), which is what Rocq's [string] holds; [str.lower], the word
    characters of [re] and the digits and blanks of [float] are given for
    exactly that range.  Exceptions are explicit: every operation that can
    raise returns a [result]. *)

From Stdlib Require Import ZArith NArith String Ascii List Bool Lia.
From Stdlib Require Import Floats.SpecFloat.
From stdpp Require Import base option gmap strings list fin_maps.

Set Warnings "-register-all".

Local Open Scope string_scope.
Local Open Scope Z_scope.

(** ** Python values, exceptions and the builtins the code calls *)

Module Py.

(** The failures of [requests] that [requests.RequestException] covers. *)
Inductive request_error : Type :=
  | HTTPError
  | ConnectionError
  | ConnectTimeout
  | TooManyRedirects
  | InvalidJSONError.

(** Exception classes that can reach the modelled code. *)
Inductive exn : Type :=
  | TypeError
  | ValueError
  | OverflowError
  | AttributeError
  | RequestException (k : request_error).

Inductive result (A : Type) : Type :=
  | Ok (a : A)
  | Raise (e : exn).
Arguments Ok {A} a.
Arguments Raise {A} e.

#[export] Instance result_ret : MRet result := fun A a => Ok a.
#[export] Instance result_bind : MBind result := fun A B k m =>
  match m with
  | Ok a => k a
  | Raise e => Raise e
  end.

(** JSON-shaped Python objects. *)
Inductive pyval : Type :=
  | PNone
  | PBool (b : bool)
  | PInt (z : Z)
  | PFloat (f : spec_float)
  | PStr (s : string)
  | PList (l : list pyval)
  | PDict (d : gmap string pyval).

(** [d.get(key, default)] *)
Definition get (d : gmap string pyval) (key : string) (dflt : pyval) : pyval :=
  default dflt (d !! key).

(** Truth value of an object, as [if x] and generator filters test it. *)
Definition truthy (v : pyval) : bool :=
  match v with
  | PNone => false
  | PBool b => b
  | PInt z => negb (z =? 0)
  | PFloat (S754_zero _) => false
  | PFloat _ => true
  | PStr s => negb (String.eqb s "")
  | PList l => match l with [] => false | _ :: _ => true end
  | PDict d => negb (Nat.eqb (size d) 0)
  end.

(** *** Text *)

Definition code (c : ascii) : N := N_of_ascii c.

Definition in_range (lo hi n : N) : bool := ((lo <=? n) && (n <=? hi))%N.

(** [str.lower] on one code point: A-Z and the Latin-1 capitals
    U+00C0..U+00DE (the multiplication sign U+00D7 excepted) move up by 32. *)
Definition lower_char (c : ascii) : ascii :=
  let n := code c in
  if in_range 65 90 n || (in_range 192 222 n && negb (n =? 215)%N)
  then ascii_of_N (n + 32)
  else c.

Fixpoint str_lower (s : string) : string :=
  match s with
  | EmptyString => EmptyString
  | String c s' => String (lower_char c) (str_lower s')
  end.

(** [needle in hay] for two strings. *)
Fixpoint is_prefix (p s : string) : bool :=
  match p, s with
  | EmptyString, _ => true
  | String a p', String b s' => Ascii.eqb a b && is_prefix p' s'
  | String _ _, EmptyString => false
  end.

Fixpoint contains (needle hay : string) : bool :=
  is_prefix needle hay ||
  match hay with
  | EmptyString => false
  | String _ hay' => contains needle hay'
  end.

(** Attribute lookup [v.lower()]: only text has the method. *)
Definition lower (v : pyval) : result string :=
  match v with
  | PStr s => Ok (str_lower s)
  | _ => Raise AttributeError
  end.

(** *** [float(x)] *)

Definition prec : Z := 53.
Definition emax : Z := 1024.

Definition is_digit (c : ascii) : bool := in_range 48 57 (code c).
Definition digit_val (c : ascii) : Z := Z.of_N (code c) - 48.

(** Blanks that the string conversion strips: tab, LF, VT, FF, CR and
    space; NEL (U+0085) and NBSP (U+00A0) are first rewritten to a space. *)
Definition is_space (c : ascii) : bool :=
  let n := code c in
  in_range 9 13 n || (n =? 32)%N || (n =? 133)%N || (n =? 160)%N.

Fixpoint lstrip (s : string) : string :=
  match s with
  | String c s' => if is_space c then lstrip s' else s
  | EmptyString => EmptyString
  end.

Fixpoint rstrip (s : string) : string :=
  match s with
  | EmptyString => EmptyString
  | String c s' =>
      match rstrip s' with
      | EmptyString => if is_space c then EmptyString else String c EmptyString
      | r => String c r
      end
  end.

(** Underscores may only sit between two digits; they are dropped before
    the number is read.  [prev] is the character before the current one. *)
Fixpoint drop_underscores (prev : option ascii) (s : string) : option string :=
  match s with
  | EmptyString =>
      match prev with
      | Some "_"%char => None
      | _ => Some EmptyString
      end
  | String c s' =>
      if Ascii.eqb c "_" then
        match prev with
        | Some p => if is_digit p then drop_underscores (Some c) s' else None
        | None => None
        end
      else
        match prev with
        | Some "_"%char =>
            if is_digit c then String c <$> drop_underscores (Some c) s' else None
        | _ => String c <$> drop_underscores (Some c) s'
        end
  end.

(** Longest run of digits at the front: its value, its length, the rest. *)
Fixpoint take_digits (acc : Z) (n : Z) (s : string) : Z * Z * string :=
  match s with
  | String c s' =>
      if is_digit c then take_digits (10 * acc + digit_val c) (n + 1) s'
      else (acc, n, s)
  | EmptyString => (acc, n, s)
  end.

Definition take_sign (s : string) : bool * string :=
  match s with
  | String "-" s' => (true, s')
  | String "+" s' => (false, s')
  | _ => (false, s)
  end.

(** Optional exponent part [e[+-]digits]; a malformed one is left unread. *)
Definition take_exponent (s : string) : Z * string :=
  match s with
  | String c s' =>
      if Ascii.eqb (lower_char c) "e" then
        let '(neg, s'') := take_sign s' in
        let '(x, n, rest) := take_digits 0 0 s'' in
        if n =? 0 then (0, s) else ((if neg then - x else x), rest)
      else (0, s)
  | EmptyString => (0, s)
  end.

(** The binary64 nearest to [m * 10^e] (ties to even), [m > 0]. *)
Definition round_decimal (neg : bool) (m : Z) (e : Z) : spec_float :=
  let num := m * 10 ^ Z.max e 0 in
  let den := 10 ^ Z.max (- e) 0 in
  let '(q, e2, loc) := SFdiv_core_binary prec emax num 0 den 0 in
  binary_round_aux prec emax neg q e2 loc.

(** [sign? (digits [. digits?] | . digits) exponent?], all of [s]. *)
Definition parse_decimal (s : string) : option spec_float :=
  let '(neg, s1) := take_sign s in
  let '(ip, ni, s2) := take_digits 0 0 s1 in
  let '(m, nf, s3) :=
    match s2 with
    | String "." s2' => take_digits ip 0 s2'
    | _ => (ip, 0, s2)
    end in
  if ni + nf =? 0 then None
  else
    let '(x, s4) := take_exponent s3 in
    match s4 with
    | EmptyString =>
        Some (if m =? 0 then S754_zero neg else round_decimal neg m (x - nf))
    | _ => None
    end.

(** [sign? (inf | infinity | nan)], letters in either case. *)
Definition parse_inf_or_nan (s : string) : option spec_float :=
  let '(neg, s1) := take_sign s in
  let w := str_lower s1 in
  if String.eqb w "inf" || String.eqb w "infinity" then Some (S754_infinity neg)
  else if String.eqb w "nan" then Some S754_nan
  else None.

Definition float_of_string (s : string) : result spec_float :=
  let body :=
    if contains "_" s then drop_underscores None s else Some s in
  match body with
  | None => Raise ValueError
  | Some b =>
      let t := rstrip (lstrip b) in
      match parse_decimal t with
      | Some f => Ok f
      | None =>
          match parse_inf_or_nan t with
          | Some f => Ok f
          | None => Raise ValueError
          end
      end
  end.

(** An integer goes to the nearest binary64; one that rounds past the
    largest finite float raises [OverflowError]. *)
Definition float_of_int (z : Z) : result spec_float :=
  match binary_normalize prec emax z 0 false with
  | S754_infinity _ => Raise OverflowError
  | f => Ok f
  end.

Definition float (v : pyval) : result spec_float :=
  match v with
  | PNone => Raise TypeError
  | PBool b => float_of_int (if b then 1 else 0)
  | PInt z => float_of_int z
  | PFloat f => Ok f
  | PStr s => float_of_string s
  | PList _ => Raise TypeError
  | PDict _ => Raise TypeError
  end.

End Py.

(** ** The fragment of [re] the condition patterns use

    A pattern is a [|]-separated list of alternatives, each a sequence of
    plain characters and [\b] word-boundary assertions.  Patterns are kept as
    the source writes them and compiled by [compile]. *)

Module Re.
Import Py.

Inductive atom : Type :=
  | Boundary
  | Lit (c : ascii).

(** Word characters ([\w]) of a text pattern: alphanumeric code points
    and the underscore.  Below 256 these are the ASCII letters and digits,
    [_], the ordinal indicators, the micro sign, superscript 1-3, the
    vulgar fractions and the Latin-1 letters. *)
Definition is_word (c : ascii) : bool :=
  let n := code c in
  in_range 48 57 n || in_range 65 90 n || in_range 97 122 n || (n =? 95)%N
  || (n =? 170)%N || (n =? 181)%N || (n =? 186)%N
  || in_range 178 179 n || (n =? 185)%N || in_range 188 190 n
  || in_range 192 214 n || in_range 216 246 n || in_range 248 255 n.

Definition word_at (c : option ascii) : bool :=
  match c with
  | Some a => is_word a
  | None => false
  end.

Definition head (s : string) : option ascii :=
  match s with
  | String c _ => Some c
  | EmptyString => None
  end.

(** [\b] holds between [prev] and [next] when exactly one is a word
    character; outside the text counts as a non-word character. *)
Definition boundary (prev next : option ascii) : bool :=
  xorb (word_at prev) (word_at next).

(** Characters that stand for themselves in a pattern: ASCII letters,
    digits and the space. *)
Definition plain (c : ascii) : bool :=
  let n := code c in
  in_range 48 57 n || in_range 65 90 n || in_range 97 122 n || (n =? 32)%N.

Definition add_atom (a : atom) (alts : list (list atom)) : list (list atom) :=
  match alts with
  | [] => [[a]]
  | p :: rest => (a :: p) :: rest
  end.

Fixpoint compile (pattern : string) : option (list (list atom)) :=
  match pattern with
  | EmptyString => Some [[]]
  | String "\" (String "b" rest) => add_atom Boundary <$> compile rest
  | String "|" rest => cons [] <$> compile rest
  | String c rest => if plain c then add_atom (Lit c) <$> compile rest else None
  end.

(** Match one alternative at the current position; [prev] is the
    character just before it. *)
Fixpoint match_here (p : list atom) (prev : option ascii) (s : string) : bool :=
  match p with
  | [] => true
  | Boundary :: p' => boundary prev (head s) && match_here p' prev s
  | Lit c :: p' =>
      match s with
      | String c' s' => Ascii.eqb c c' && match_here p' (Some c') s'
      | EmptyString => false
      end
  end.

(** Try every start position from left to right. *)
Fixpoint search_from (alts : list (list atom)) (prev : option ascii) (s : string) : bool :=
  existsb (fun p => match_here p prev s) alts ||
  match s with
  | String c s' => search_from alts (Some c) s'
  | EmptyString => false
  end.

(** Truth value of [re.search(pattern, s)]. *)
Definition search (pattern : string) (s : string) : bool :=
  match compile pattern with
  | Some alts => search_from alts None s
  | None => false
  end.

End Re.

(** ** [mercari_normalizer.py] *)

Module MercariListingNormalizer.
Import Py.

Inductive StandardCondition : Type :=
  | NEW
  | LIKE_NEW
  | VERY_GOOD
  | GOOD
  | ACCEPTABLE
  | POOR.

(** The [.name] of an enumeration member. *)
Definition name (c : StandardCondition) : string :=
  match c with
  | NEW => "NEW"
  | LIKE_NEW => "LIKE_NEW"
  | VERY_GOOD => "VERY_GOOD"
  | GOOD => "GOOD"
  | ACCEPTABLE => "ACCEPTABLE"
  | POOR => "POOR"
  end.

Definition condition_mapping : list (string * StandardCondition) :=
  [ ("\blike new\b", LIKE_NEW);
    ("\bbrand new\b", NEW);
    ("\bnew\b", NEW);
    ("\bvery good\b", VERY_GOOD);
    ("\bgood\b", GOOD);
    ("\bacceptable\b", ACCEPTABLE);
    ("\bpoor\b|\bhas flaws\b", POOR) ].

(** The [for pattern, condition in condition_mapping] loop: the condition
    of the first pattern found in the text, if any. *)
Fixpoint first_match (mapping : list (string * StandardCondition))
    (normalized_condition : string) : option StandardCondition :=
  match mapping with
  | [] => None
  | (pattern, condition) :: rest =>
      if Re.search pattern normalized_condition then Some condition
      else first_match rest normalized_condition
  end.

Definition normalize_condition (mercari_condition : pyval) : result StandardCondition :=
  normalized_condition ← lower mercari_condition;
  mret (default GOOD (first_match condition_mapping normalized_condition)).

Definition extract_seller_info (listing_data : gmap string pyval) : gmap string pyval :=
  {[ "seller_name" := get listing_data "seller_username" (PStr "Unknown");
     "seller_rating" := get listing_data "seller_rating" PNone;
     "total_sales" := get listing_data "seller_total_sales" (PInt 0);
     "joined_date" := get listing_data "seller_join_date" PNone ]}.

Definition brands : list string := ["Nike"; "Adidas"; "Apple"; "Samsung"; "Sony"].

(** The [for brand in brands] loop of both finders; [text.lower()] is
    looked up afresh in every round. *)
Fixpoint find_brand (brands : list string) (text : pyval) : result pyval :=
  match brands with
  | [] => mret PNone
  | brand :: rest =>
      lowered ← lower text;
      if contains (str_lower brand) lowered then mret (PStr brand)
      else find_brand rest text
  end.

Definition _find_brand_in_title (title : pyval) : result pyval :=
  find_brand brands title.

Definition _find_brand_in_description (description : pyval) : result pyval :=
  find_brand brands description.

(** [next((brand for brand in brand_candidates if brand), None)] *)
Definition first_truthy (candidates : list pyval) : pyval :=
  default PNone (List.find truthy candidates).

(** The candidate list is built in full before it is searched. *)
Definition _extract_brand (listing_data : gmap string pyval) : result pyval :=
  let explicit := get listing_data "brand" PNone in
  in_title ← _find_brand_in_title (get listing_data "title" (PStr ""));
  in_description ← _find_brand_in_description (get listing_data "description" (PStr ""));
  mret (first_truthy [explicit; in_title; in_description]).

(** The dictionary display is evaluated entry by entry, top to bottom, so
    the first entry that raises decides the exception. *)
Definition normalize_listing (mercari_listing : gmap string pyval)
    : result (gmap string pyval) :=
  let platform_id := get mercari_listing "id" PNone in
  let title := get mercari_listing "title" (PStr "") in
  let description := get mercari_listing "description" (PStr "") in
  price ← float (get mercari_listing "price" (PInt 0));
  let images := get mercari_listing "image_urls" (PList []) in
  condition ← normalize_condition (get mercari_listing "condition" (PStr "Unknown"));
  let seller_info := extract_seller_info mercari_listing in
  let category := get mercari_listing "category" (PStr "Unknown") in
  brand ← _extract_brand mercari_listing;
  shipping_cost ← float (get mercari_listing "shipping_cost" (PInt 0));
  let shipping_method := get mercari_listing "shipping_method" (PStr "Unknown") in
  let url := get mercari_listing "listing_url" PNone in
  mret ({[ "platform" := PStr "Mercari";
           "platform_id" := platform_id;
           "title" := title;
           "description" := description;
           "price" := PFloat price;
           "images" := images;
           "condition" := PStr (name condition);
           "seller_info" := PDict seller_info;
           "category" := category;
           "brand" := brand;
           "shipping_cost" := PFloat shipping_cost;
           "shipping_method" := shipping_method;
           "url" := url ]} : gmap string pyval).

End MercariListingNormalizer.

(** ** [mercari_search.py] *)

Module MercariSearch.
Import Py.

(** What the remote endpoint hands back to [requests.get]. *)
Record response : Type := {
  status_code : Z;
  json : result pyval  (* [response.json()]: the decoded body, or what decoding raises *)
}.

Inductive get_outcome : Type :=
  | GetRaises (e : exn)
  | GetReturns (r : response).

Inductive log_record : Type :=
  | LogInfo (returned : nat)   (* "Mercari search returned {n} results" *)
  | LogError (e : exn).        (* "Mercari search error: {e}" *)

Record client : Type := {
  base_url : string;
  api_key : option string
}.

Definition init (api_key : option string) : client :=
  {| base_url := "https://api.mercari.com/v2/search"; api_key := api_key |}.

Record query : Type := {
  keywords : string;
  category : option string;
  condition : option string;
  min_price : option pyval;
  max_price : option pyval;
  include_sold : bool
}.

Definition condition_map : gmap string string :=
  {[ "new" := "1"; "like_new" := "2"; "good" := "3"; "fair" := "4" ]}.

Definition nonempty (o : option string) : option string :=
  match o with
  | Some s => if String.eqb s "" then None else Some s
  | None => None
  end.

Definition set_if {A} (o : option A) (key : string) (f : A -> pyval)
    (params : gmap string pyval) : gmap string pyval :=
  match o with
  | Some a => <[ key := f a ]> params
  | None => params
  end.

Definition build_params (q : query) : gmap string pyval :=
  let params : gmap string pyval :=
    {[ "keyword" := PStr (keywords q); "limit" := PInt 100 ]} in
  let params := set_if (nonempty (category q)) "category_id" PStr params in
  let params :=
    set_if (nonempty (condition q)) "condition"
      (fun c => PStr (default c (condition_map !! str_lower c))) params in
  let params := set_if (min_price q) "price_min" id params in
  let params := set_if (max_price q) "price_max" id params in
  if include_sold q then params else <[ "status" := PStr "on_sale" ]> params.

Definition build_headers (self : client) : gmap string string :=
  {[ "Authorization" :=
       match nonempty (api_key self) with
       | Some k => "Bearer " +:+ k
       | None => ""
       end;
     "Content-Type" := "application/json" ]}.

(** [response.raise_for_status()] *)
Definition raise_for_status (r : response) : result unit :=
  if (400 <=? status_code r) && (status_code r <? 600)
  then Raise (RequestException HTTPError)
  else Ok tt.

(** [body.get('items', [])]: only a dictionary has [get]. *)
Definition items_of (body : pyval) : result pyval :=
  match body with
  | PDict d => Ok (get d "items" (PList []))
  | _ => Raise AttributeError
  end.

(** The objects a [for] loop draws from a value: the elements of a list,
    the characters of a text, the keys of a dictionary. *)
Definition iterate (v : pyval) : result (list pyval) :=
  match v with
  | PList l => Ok l
  | PStr s => Ok ((fun c => PStr (String c EmptyString)) <$> list_ascii_of_string s)
  | PDict d => Ok ((fun kv => PStr kv.1) <$> map_to_list d)
  | _ => Raise TypeError
  end.

Section Search.
(** The network, and the text an f-string inserts for a value. *)
Variable requests_get : string -> gmap string pyval -> gmap string string -> get_outcome.
Variable format : pyval -> string.

Definition process (item : pyval) : result (gmap string pyval) :=
  match item with
  | PDict d =>
      Ok ({[ "id" := get d "id" PNone;
             "title" := get d "name" PNone;
             "price" := get d "price" PNone;
             "condition" := get d "condition_description" PNone;
             "url" := PStr ("https://mercari.com/item/" +:+ format (get d "id" PNone));
             "is_sold" := PBool match get d "status" PNone with
                                | PStr s => String.eqb s "sold"
                                | _ => false
                                end ]} : gmap string pyval)
  | _ => Raise AttributeError
  end.

Fixpoint process_all (items : list pyval) : result (list (gmap string pyval)) :=
  match items with
  | [] => Ok []
  | item :: rest =>
      p ← process item;
      ps ← process_all rest;
      mret (p :: ps)
  end.

(** The body of the [try] block. *)
Definition attempt (self : client) (q : query) : result (list (gmap string pyval)) :=
  match requests_get (base_url self) (build_params q) (build_headers self) with
  | GetRaises e => Raise e
  | GetReturns r =>
      _ ← raise_for_status r;
      body ← json r;
      results ← items_of body;
      items ← iterate results;
      process_all items
  end.

(** [search]: the value returned or the exception let through, and the
    lines logged. *)
Definition search (self : client) (q : query)
    : result (list (gmap string pyval)) * list log_record :=
  match attempt self q with
  | Ok processed_results => (Ok processed_results, [LogInfo (length processed_results)])
  | Raise (RequestException k) => (Ok [], [LogError (RequestException k)])
  | Raise e => (Raise e, [])
  end.

End Search.

End MercariSearch.

(** ** Notions of the specification

    Definitions written from the specification's wording, against which the
    functions above are compared. *)

Module Spec.
Import Py MercariListingNormalizer.

(** The character that ends [s], or [prev] when [s] is empty. *)
Fixpoint last_from (prev : option ascii) (s : string) : option ascii :=
  match s with
  | EmptyString => prev
  | String c s' => last_from (Some c) s'
  end.

(** [w] stands in [text] as a whole phrase: no word character touches
    it on either side. *)
Definition whole_phrase (w text : string) : Prop :=
  exists pre post, text = pre +:+ w +:+ post
    /\ Re.word_at (last_from None pre) = false
    /\ Re.word_at (Re.head post) = false.

(** The same, up to letter case of the occurrence. *)
Definition whole_phrase_ci (w text : string) : Prop :=
  exists pre mid post, text = pre +:+ mid +:+ post
    /\ str_lower mid = w
    /\ Re.word_at (last_from None pre) = false
    /\ Re.word_at (Re.head post) = false.

Definition lits (w : string) : list Re.atom := Re.Lit <$> list_ascii_of_string w.

Fixpoint all_plain (w : string) : bool :=
  match w with
  | EmptyString => true
  | String c w' => Re.plain c && all_plain w'
  end.

(** A field that is absent or holds text. *)
Definition text_or_missing (raw : gmap string pyval) (key : string) : bool :=
  match raw !! key with
  | None | Some (PStr _) => true
  | Some _ => false
  end.

Definition text_of (raw : gmap string pyval) (key : string) : string :=
  match raw !! key with
  | Some (PStr s) => s
  | _ => ""
  end.

Definition known_brands : list string := ["Nike"; "Adidas"; "Apple"; "Samsung"; "Sony"].

(** First entry of the brand list, in the list's order, that occurs in
    the text when case is ignored. *)
Definition scan (text : string) : option string :=
  List.find (fun b => contains (str_lower b) (str_lower text)) known_brands.

(** The explicit brand, when present and non-empty. *)
Definition explicit_brand (raw : gmap string pyval) : option pyval :=
  match raw !! "brand" with
  | Some v => if truthy v then Some v else None
  | None => None
  end.

(** Explicit field, then title scan, then description scan, else null. *)
Definition resolve_brand (raw : gmap string pyval) : pyval :=
  match explicit_brand raw with
  | Some b => b
  | None =>
      match scan (text_of raw "title") with
      | Some b => PStr b
      | None =>
          match scan (text_of raw "description") with
          | Some b => PStr b
          | None => PNone
          end
      end
  end.

Definition canonical_keys : gset string :=
  {[ "platform"; "platform_id"; "title"; "description"; "price"; "images";
     "condition"; "seller_info"; "category"; "brand"; "shipping_cost";
     "shipping_method"; "url" ]}.

(** The keys of the raw record that the normalizer looks up. *)
Definition read_keys : list string :=
  [ "id"; "title"; "description"; "price"; "image_urls"; "condition";
    "seller_username"; "seller_rating"; "seller_total_sales"; "seller_join_date";
    "category"; "brand"; "shipping_cost"; "shipping_method"; "listing_url" ].

(** A value that [float] accepts. *)
Definition coercible (v : pyval) : Prop := exists f, float v = Ok f.

(** The failure contract as the specification words it: a type or value
    error is raised exactly when the price or the shipping cost cannot be
    converted to a number. *)
Definition raises_iff_not_coercible (raw : gmap string pyval) : Prop :=
  (exists e, (e = TypeError \/ e = ValueError) /\ normalize_listing raw = Raise e)
  <-> (~ coercible (get raw "price" (PInt 0))
       \/ ~ coercible (get raw "shipping_cost" (PInt 0))).

(** Brand resolution as the specification words it, for any raw record:
    the resolver returns the first non-empty of the three sources. *)
Definition resolves_by_priority (raw : gmap string pyval) : Prop :=
  _extract_brand raw = Ok (resolve_brand raw).


End Spec.

(** ** Shapes of values, for the further properties *)

Module Shape.
Import Py.

Definition is_dict (v : pyval) : bool :=
  match v with
  | PDict _ => true
  | _ => false
  end.

(** The values a [for] loop can draw from. *)
Definition iterable (v : pyval) : bool :=
  match v with
  | PList _ | PStr _ | PDict _ => true
  | _ => false
  end.

End Shape.

Import Py Spec.

(** ** Facts about text *)

Section TextFacts.

Lemma append_nil (s : string) : "" +:+ s = s.
Proof. reflexivity. Qed.

Lemma append_cons (c : ascii) (s t : string) : String c s +:+ t = String c (s +:+ t).
Proof. reflexivity. Qed.

Lemma is_word_lower_char (c : ascii) : Re.is_word (lower_char c) = Re.is_word c.
Proof. destruct c as [[] [] [] [] [] [] [] []]; reflexivity. Qed.

Lemma str_lower_app (s t : string) : str_lower (s +:+ t) = str_lower s +:+ str_lower t.
Proof.
  induction s as [|c s IH]; [reflexivity|].
  rewrite append_cons. simpl. rewrite IH. reflexivity.
Qed.

Lemma is_prefix_app (p s : string) : is_prefix p (p +:+ s) = true.
Proof.
  induction p as [|c p IH]; [reflexivity|].
  rewrite append_cons. simpl. rewrite Ascii.eqb_refl. exact IH.
Qed.

Lemma is_prefix_inv (p s : string) : is_prefix p s = true -> exists post, s = p +:+ post.
Proof.
  revert s. induction p as [|c p IH]; intros s H.
  - by exists s.
  - destruct s as [|d s]; simpl in H; [discriminate|].
    apply andb_true_iff in H as [Hc Hp]. apply Ascii.eqb_eq in Hc as ->.
    destruct (IH _ Hp) as [post ->]. by exists post.
Qed.

Lemma contains_of_prefix (needle hay : string) :
  is_prefix needle hay = true -> contains needle hay = true.
Proof. intros H. destruct hay; simpl; rewrite H; reflexivity. Qed.

Lemma contains_spec (needle hay : string) :
  contains needle hay = true <-> exists pre post, hay = pre +:+ needle +:+ post.
Proof.
  split.
  - induction hay as [|c hay IH]; simpl; intros H.
    + rewrite orb_false_r in H. apply is_prefix_inv in H as [post ->].
      by exists EmptyString, post.
    + apply orb_true_iff in H as [H|H].
      * apply is_prefix_inv in H as [post ->]. by exists EmptyString, post.
      * destruct (IH H) as (pre & post & ->). by exists (String c pre), post.
  - intros (pre & post & ->). induction pre as [|c pre IH].
    + rewrite append_nil. apply contains_of_prefix, is_prefix_app.
    + rewrite append_cons. simpl. rewrite IH. apply orb_true_r.
Qed.

End TextFacts.

(** ** Facts about pattern search *)

Section RegexFacts.
Import Re.

Lemma compile_plain_char (c : ascii) (rest : string) :
  plain c = true -> compile (String c rest) = add_atom (Lit c) <$> compile rest.
Proof.
  destruct c as [[] [] [] [] [] [] [] []]; intros H; try discriminate H; reflexivity.
Qed.

Lemma compile_boundary (rest : string) :
  compile ("\b" +:+ rest) = add_atom Boundary <$> compile rest.
Proof. reflexivity. Qed.

Lemma compile_word (w : string) (p : list atom) (alts : list (list atom)) (rest : string) :
  all_plain w = true ->
  compile rest = Some (p :: alts) ->
  compile (w +:+ rest) = Some ((lits w ++ p)%list :: alts).
Proof.
  intros Hw Hrest. induction w as [|c w IH].
  - exact Hrest.
  - simpl in Hw. apply andb_true_iff in Hw as [Hc Hw].
    rewrite append_cons, compile_plain_char by exact Hc.
    rewrite (IH Hw). reflexivity.
Qed.

Lemma compile_bounded (w : string) :
  all_plain w = true ->
  compile ("\b" +:+ w +:+ "\b") = Some [Boundary :: (lits w ++ [Boundary])%list].
Proof.
  intros Hw. rewrite compile_boundary.
  rewrite (compile_word w [Boundary] [] "\b" Hw); reflexivity.
Qed.

Lemma match_here_lits (w : string) (p : list atom) (prev : option ascii) (post : string) :
  match_here (lits w ++ p)%list prev (w +:+ post) = match_here p (last_from prev w) post.
Proof.
  revert prev. induction w as [|c w IH]; intros prev; [reflexivity|].
  rewrite append_cons. unfold lits in *. simpl.
  rewrite Ascii.eqb_refl. simpl. apply IH.
Qed.

Lemma match_here_lits_inv (w : string) (p : list atom) (prev : option ascii) (s : string) :
  match_here (lits w ++ p)%list prev s = true ->
  exists post, s = w +:+ post /\ match_here p (last_from prev w) post = true.
Proof.
  revert prev s. induction w as [|c w IH]; intros prev s H.
  - exists s. split; [reflexivity | exact H].
  - unfold lits in *. simpl in H. destruct s as [|d s]; [discriminate|].
    apply andb_true_iff in H as [Hc H]. apply Ascii.eqb_eq in Hc as <-.
    destruct (IH _ _ H) as (post & -> & Hp). exists post. split; [reflexivity | exact Hp].
Qed.

Lemma search_from_skip (alts : list (list atom)) (pre s : string) (prev : option ascii) :
  existsb (fun p => match_here p (last_from prev pre) s) alts = true ->
  search_from alts prev (pre +:+ s) = true.
Proof.
  revert prev. induction pre as [|c pre IH]; intros prev H.
  - rewrite append_nil. destruct s; simpl in *; rewrite H; reflexivity.
  - rewrite append_cons. simpl. rewrite (IH (Some c) H). apply orb_true_r.
Qed.

Lemma search_from_inv (alts : list (list atom)) (s : string) (prev : option ascii) :
  search_from alts prev s = true ->
  exists pre post, s = pre +:+ post
    /\ existsb (fun p => match_here p (last_from prev pre) post) alts = true.
Proof.
  revert prev. induction s as [|c s IH]; intros prev H; simpl in H.
  - rewrite orb_false_r in H. exists EmptyString, EmptyString. split; [reflexivity | exact H].
  - apply orb_true_iff in H as [H|H].
    + exists EmptyString, (String c s). split; [reflexivity | exact H].
    + destruct (IH _ H) as (pre & post & -> & Hm).
      exists (String c pre), post. split; [reflexivity | exact Hm].
Qed.

(** A literal that begins and ends with a word character, wrapped in two
    boundary assertions, is found exactly where it stands as a whole
    phrase: not glued to a word character on either side. *)
Lemma search_bounded_iff (w s : string) :
  all_plain w = true ->
  word_at (head w) = true ->
  word_at (last_from None w) = true ->
  search ("\b" +:+ w +:+ "\b") s = true <-> whole_phrase w s.
Proof.
  intros Hplain Hfirst Hlast. unfold search. rewrite (compile_bounded w Hplain).
  assert (Hhead : forall post, head (w +:+ post) = head w).
  { intros post. destruct w; [discriminate Hfirst | reflexivity]. }
  assert (Hend : forall prev, last_from prev w = last_from None w).
  { intros prev. destruct w; [discriminate Hfirst | reflexivity]. }
  split.
  - intros H. apply search_from_inv in H as (pre & rest & -> & Hm).
    simpl in Hm. rewrite orb_false_r in Hm.
    apply andb_true_iff in Hm as [Hb Hm].
    apply match_here_lits_inv in Hm as (post & -> & Hm).
    simpl in Hm. rewrite andb_true_r in Hm.
    exists pre, post. split; [reflexivity|].
    unfold boundary in Hb, Hm. rewrite Hhead, Hfirst in Hb. rewrite Hend, Hlast in Hm.
    split.
    + destruct (word_at (last_from None pre)); [discriminate Hb | reflexivity].
    + destruct (word_at (head post)); [discriminate Hm | reflexivity].
  - intros (pre & post & -> & Hpre & Hpost).
    apply search_from_skip. simpl. rewrite orb_false_r.
    rewrite match_here_lits. simpl. unfold boundary.
    rewrite Hhead, Hfirst, Hpre, Hend, Hlast, Hpost. reflexivity.
Qed.

Lemma last_from_lower (prev : option ascii) (s : string) :
  last_from (lower_char <$> prev) (str_lower s) = lower_char <$> last_from prev s.
Proof. revert prev. induction s as [|c s IH]; intros prev; [reflexivity | apply (IH (Some c))]. Qed.

Lemma word_at_lower (o : option ascii) : word_at (lower_char <$> o) = word_at o.
Proof. destruct o; [apply is_word_lower_char | reflexivity]. Qed.

Lemma head_lower (s : string) : head (str_lower s) = lower_char <$> head s.
Proof. destruct s; reflexivity. Qed.

Lemma whole_phrase_lower (w s : string) :
  whole_phrase_ci w s -> whole_phrase w (str_lower s).
Proof.
  intros (pre & mid & post & -> & <- & Hpre & Hpost).
  exists (str_lower pre), (str_lower post). rewrite !str_lower_app.
  split; [reflexivity|]. split.
  - rewrite (last_from_lower None), word_at_lower. exact Hpre.
  - rewrite head_lower, word_at_lower. exact Hpost.
Qed.
End RegexFacts.

(** ** Facts about the normalizer's helpers *)

Section NormalizerFacts.
Import MercariListingNormalizer.
Implicit Types (raw : gmap string pyval) (s : string) (v : pyval).

Lemma bind_Ok {A B} (a : A) (k : A -> result B) : (Ok a ≫= k) = k a.
Proof. reflexivity. Qed.

Lemma bind_Raise {A B} (e : exn) (k : A -> result B) : (Raise e ≫= k) = Raise e.
Proof. reflexivity. Qed.

Lemma get_text raw key :
  text_or_missing raw key = true -> get raw key (PStr "") = PStr (text_of raw key).
Proof.
  unfold text_or_missing, text_of, get. destruct (raw !! key) as [[]|]; simpl; intros H;
    try discriminate H; reflexivity.
Qed.

Lemma get_not_text raw key dflt :
  text_or_missing raw key = false ->
  lower (get raw key (PStr dflt)) = Raise AttributeError.
Proof.
  unfold text_or_missing, get. destruct (raw !! key) as [[]|]; simpl; intros H;
    try discriminate H; reflexivity.
Qed.

Lemma find_brand_text (bs : list string) s :
  find_brand bs (PStr s) =
  Ok (match List.find (fun b => contains (str_lower b) (str_lower s)) bs with
      | Some b => PStr b
      | None => PNone
      end).
Proof.
  induction bs as [|b bs IH]; [reflexivity|]. simpl.
  destruct (contains (str_lower b) (str_lower s)); [reflexivity | exact IH].
Qed.

Lemma find_brand_not_text v :
  lower v = Raise AttributeError -> find_brand brands v = Raise AttributeError.
Proof. intros H. simpl. rewrite H. reflexivity. Qed.

Lemma find_brand_listed (bs : list string) v r :
  find_brand bs v = Ok r -> r = PNone \/ exists b, r = PStr b /\ In b bs.
Proof.
  induction bs as [|b bs IH]; simpl.
  - intros [= <-]. by left.
  - destruct (lower v) as [t|e]; simpl; [|discriminate].
    destruct (contains (str_lower b) t).
    + intros [= <-]. right. exists b. split; [reflexivity | by left].
    + intros H. destruct (IH H) as [->|(b' & -> & Hin)]; [by left|].
      right. exists b'. split; [reflexivity | by right].
Qed.

Lemma scan_truthy s b : scan s = Some b -> truthy (PStr b) = true.
Proof.
  intros H. apply find_some in H as [Hin _].
  repeat (destruct Hin as [<-|Hin]; [reflexivity|]). destruct Hin.
Qed.

Lemma first_truthy_chain v (o1 o2 : option string) :
  (forall b, o1 = Some b -> truthy (PStr b) = true) ->
  (forall b, o2 = Some b -> truthy (PStr b) = true) ->
  first_truthy [v; from_option PStr PNone o1; from_option PStr PNone o2] =
  if truthy v then v
  else match o1 with
       | Some b => PStr b
       | None => from_option PStr PNone o2
       end.
Proof.
  intros H1 H2. unfold first_truthy. cbn [List.find].
  destruct (truthy v); [reflexivity|].
  destruct o1 as [b1|]; cbn [from_option].
  - rewrite (H1 b1 eq_refl). reflexivity.
  - cbn [truthy]. destruct o2 as [b2|]; cbn [from_option]; [|reflexivity].
    rewrite (H2 b2 eq_refl). reflexivity.
Qed.

Lemma find_brand_scan s :
  find_brand brands (PStr s) = Ok (from_option PStr PNone (scan s)).
Proof. rewrite find_brand_text. unfold scan, known_brands, brands. by destruct (List.find _ _). Qed.

Lemma extract_brand_text raw :
  text_or_missing raw "title" = true ->
  text_or_missing raw "description" = true ->
  _extract_brand raw = Ok (resolve_brand raw).
Proof.
  intros Ht Hd. unfold _extract_brand, _find_brand_in_title, _find_brand_in_description.
  rewrite (get_text _ _ Ht), (get_text _ _ Hd), !find_brand_scan, !bind_Ok.
  rewrite first_truthy_chain by apply scan_truthy.
  unfold resolve_brand, explicit_brand, get, mret, result_ret.
  destruct (raw !! "brand") as [b|]; cbn [default from_option id truthy].
  - destruct (truthy b); [reflexivity|].
    destruct (scan (text_of raw "title")); [reflexivity|]. by destruct (scan _).
  - destruct (scan (text_of raw "title")); [reflexivity|]. by destruct (scan _).
Qed.
End NormalizerFacts.

Section Alternation.
Import MercariListingNormalizer Re.

Lemma search_from_alts (a b : list (list atom)) (prev : option ascii) (s : string) :
  search_from (a ++ b)%list prev s = search_from a prev s || search_from b prev s.
Proof.
  revert prev. induction s as [|c s IH]; intros prev; simpl; rewrite existsb_app.
  - rewrite !orb_false_r. reflexivity.
  - rewrite IH.
    destruct (existsb _ a), (existsb _ b), (search_from a _ s), (search_from b _ s);
      reflexivity.
Qed.

Lemma search_compiled (pattern : string) (alts : list (list atom)) (s : string) :
  compile pattern = Some alts -> search pattern s = search_from alts None s.
Proof. unfold search. by intros ->. Qed.

Lemma search_poor_or_flaws (s : string) :
  search "\bpoor\b|\bhas flaws\b" s = search "\bpoor\b" s || search "\bhas flaws\b" s.
Proof.
  erewrite !search_compiled by (vm_compute; reflexivity).
  apply (search_from_alts [_] [_]).
Qed.

(** The phrases the seven patterns look for. *)
Lemma no_phrase_no_match (s : string) :
  Forall (fun w => ~ whole_phrase w s)
    ["like new"; "brand new"; "new"; "very good"; "good"; "acceptable"; "poor"; "has flaws"] ->
  Forall (fun pc => search pc.1 s = false) condition_mapping.
Proof.
  rewrite !Forall_cons. intros (Hln & Hbn & Hn & Hvg & Hg & Ha & Hp & Hf & _).
  assert (Hno : forall w, all_plain w = true -> word_at (head w) = true ->
                  word_at (last_from None w) = true -> ~ whole_phrase w s ->
                  search ("\b" +:+ w +:+ "\b") s = false).
  { intros w Hplain Hfirst Hlast Hw. destruct (search _ s) eqn:E; [|reflexivity].
    exfalso. apply Hw. by apply (search_bounded_iff w s Hplain Hfirst Hlast). }
  unfold condition_mapping. rewrite !Forall_cons. cbn [fst].
  split; [exact (Hno "like new" eq_refl eq_refl eq_refl Hln)|].
  split; [exact (Hno "brand new" eq_refl eq_refl eq_refl Hbn)|].
  split; [exact (Hno "new" eq_refl eq_refl eq_refl Hn)|].
  split; [exact (Hno "very good" eq_refl eq_refl eq_refl Hvg)|].
  split; [exact (Hno "good" eq_refl eq_refl eq_refl Hg)|].
  split; [exact (Hno "acceptable" eq_refl eq_refl eq_refl Ha)|].
  split; [|by apply Forall_nil].
  assert (Epoor : search "\bpoor\b" s = false)
    by exact (Hno "poor" eq_refl eq_refl eq_refl Hp).
  assert (Eflaws : search "\bhas flaws\b" s = false)
    by exact (Hno "has flaws" eq_refl eq_refl eq_refl Hf).
  rewrite search_poor_or_flaws, Epoor, Eflaws. reflexivity.
Qed.
End Alternation.

(** ** The condition classifier *)

Section Classifier.
Import MercariListingNormalizer.

Lemma normalize_condition_text (s : string) :
  normalize_condition (PStr s)
  = Ok (default GOOD (first_match condition_mapping (str_lower s))).
Proof. reflexivity. Qed.

Lemma first_match_none (mapping : list (string * StandardCondition)) (s : string) :
  Forall (fun pc => Re.search pc.1 s = false) mapping -> first_match mapping s = None.
Proof.
  induction 1 as [|[p c] rest Hp _ IH]; [reflexivity|].
  simpl in *. rewrite Hp. exact IH.
Qed.

(** C2: every condition text in which "like new" occurs as a whole
    phrase, in any letter case, is classified LIKE_NEW, whatever else the
    text holds (the words "new" or "brand new" included): that pattern is
    tried first. *)
Theorem like_new_takes_precedence (s : string) :
  whole_phrase_ci "like new" s -> normalize_condition (PStr s) = Ok LIKE_NEW.
Proof.
  intros H. apply whole_phrase_lower in H.
  apply (search_bounded_iff "like new") in H; [|reflexivity..].
  change ("\b" +:+ "like new" +:+ "\b") with "\blike new\b" in H.
  rewrite normalize_condition_text. cbn [condition_mapping first_match].
  rewrite H. reflexivity.
Qed.

Lemma like_new_takes_precedence_witness :
  whole_phrase_ci "like new" "Brand new? No: LIKE NEW, new box" /\
  normalize_condition (PStr "Brand new? No: LIKE NEW, new box") = Ok LIKE_NEW.
Proof.
  assert (H : whole_phrase_ci "like new" "Brand new? No: LIKE NEW, new box").
  { exists "Brand new? No: ", "LIKE NEW", ", new box". repeat split. }
  split; [exact H | exact (like_new_takes_precedence _ H)].
Defined.

(** C3: on text the classifier always returns, and returns one of the six
    conditions; when none of the seven patterns is found in the lower-cased
    text (in particular when none of their phrases stands in it as a whole
    phrase) the answer is GOOD; the four documented examples hold. *)
Theorem classifier_total_with_default :
  (forall s : string, exists c,
      normalize_condition (PStr s) = Ok c
      /\ In c [NEW; LIKE_NEW; VERY_GOOD; GOOD; ACCEPTABLE; POOR])
  /\ (forall s : string,
        Forall (fun pc => Re.search pc.1 (str_lower s) = false) condition_mapping ->
        normalize_condition (PStr s) = Ok GOOD)
  /\ (forall s : string,
        Forall (fun w => ~ whole_phrase w (str_lower s))
          ["like new"; "brand new"; "new"; "very good"; "good"; "acceptable";
           "poor"; "has flaws"] ->
        normalize_condition (PStr s) = Ok GOOD)
  /\ length condition_mapping = 7%nat
  /\ normalize_condition (PStr "") = Ok GOOD
  /\ normalize_condition (PStr "Brand New") = Ok NEW
  /\ normalize_condition (PStr "Very Good Condition") = Ok VERY_GOOD
  /\ normalize_condition (PStr "Poor, Has Flaws") = Ok POOR.
Proof.
  assert (Hdefault : forall s : string,
    Forall (fun pc => Re.search pc.1 (str_lower s) = false) condition_mapping ->
    normalize_condition (PStr s) = Ok GOOD).
  { intros s H. rewrite normalize_condition_text, (first_match_none _ _ H). reflexivity. }
  split; [|split; [exact Hdefault|split; [|repeat split]]].
  - intros s. rewrite normalize_condition_text.
    exists (default GOOD (first_match condition_mapping (str_lower s))).
    split; [reflexivity|].
    destruct (default GOOD _); simpl; tauto.
  - intros s H. apply Hdefault, no_phrase_no_match, H.
Qed.

Lemma classifier_total_with_default_witness :
  Forall (fun pc => Re.search pc.1 (str_lower "Refurbished") = false) condition_mapping
  /\ normalize_condition (PStr "Refurbished") = Ok GOOD.
Proof.
  assert (H : Forall (fun pc => Re.search pc.1 (str_lower "Refurbished") = false)
                condition_mapping).
  { repeat constructor. }
  split; [exact H | exact (proj1 (proj2 classifier_total_with_default) _ H)].
Defined.

End Classifier.

(** ** Seller information *)

Section SellerInfo.
Import MercariListingNormalizer.

(** C1, as the specification words it: the record for the empty listing
    would carry the keys [name] and [rating].  The function does not return
    that record. *)
Lemma seller_info_keys_differ :
  extract_seller_info ∅
  <> {[ "name" := PStr "Unknown"; "rating" := PNone;
        "total_sales" := PInt 0; "joined_date" := PNone ]}.
Proof.
  intros H. apply (f_equal (fun m : gmap string pyval => m !! "name")) in H.
  vm_compute in H. discriminate H.
Qed.

(** C1, amended: the keys are [seller_name], [seller_rating],
    [total_sales] and [joined_date]; each holds the raw record's
    [seller_username], [seller_rating], [seller_total_sales] and
    [seller_join_date], or "Unknown", null, 0 and null when the raw key is
    absent.  On the empty record all four defaults appear. *)
Theorem seller_info_projection :
  extract_seller_info ∅
  = {[ "seller_name" := PStr "Unknown"; "seller_rating" := PNone;
       "total_sales" := PInt 0; "joined_date" := PNone ]}
  /\ forall raw : gmap string pyval,
      dom (extract_seller_info raw)
      = {[ "seller_name"; "seller_rating"; "total_sales"; "joined_date" ]}
      /\ extract_seller_info raw !! "seller_name"
         = Some (default (PStr "Unknown") (raw !! "seller_username"))
      /\ extract_seller_info raw !! "seller_rating"
         = Some (default PNone (raw !! "seller_rating"))
      /\ extract_seller_info raw !! "total_sales"
         = Some (default (PInt 0) (raw !! "seller_total_sales"))
      /\ extract_seller_info raw !! "joined_date"
         = Some (default PNone (raw !! "seller_join_date")).
Proof.
  split; [reflexivity|]. intros raw. unfold extract_seller_info, get.
  split; [|repeat split; by simplify_map_eq].
  rewrite !dom_insert_L, dom_singleton_L. set_solver.
Qed.

End SellerInfo.

(** ** Brand resolution *)

Section Brand.
Import MercariListingNormalizer.

(** The scan returns a brand exactly when that brand is the first entry of
    the list whose lower-cased name is a substring of the lower-cased text. *)
Lemma scan_first_listed (text b : string) :
  scan text = Some b <->
  exists before after, known_brands = (before ++ b :: after)%list
    /\ (exists pre post, str_lower text = pre +:+ str_lower b +:+ post)
    /\ Forall (fun b' => ~ exists pre post, str_lower text = pre +:+ str_lower b' +:+ post)
         before.
Proof.
  unfold scan. generalize known_brands as bs. intros bs. split.
  - induction bs as [|b0 bs IH]; simpl; [discriminate|].
    destruct (contains (str_lower b0) (str_lower text)) eqn:E.
    + intros [= ->]. exists [], bs. split; [reflexivity|]. split; [|constructor].
      by apply contains_spec.
    + intros H. destruct (IH H) as (before & after & -> & Hsub & Hnot).
      exists (b0 :: before), after. split; [reflexivity|]. split; [exact Hsub|].
      constructor; [|exact Hnot]. intros Hc. apply contains_spec in Hc. congruence.
  - intros (before & after & -> & Hsub & Hnot). apply contains_spec in Hsub.
    induction Hnot as [|b0 before Hb0 _ IH]; simpl.
    + by rewrite Hsub.
    + destruct (contains (str_lower b0) (str_lower text)) eqn:E; [|exact IH].
      exfalso. apply Hb0. by apply contains_spec.
Qed.

(** C4, as the specification words it, fails on a record with an
    explicit brand and a null description: the three candidates are all
    computed before one is chosen, so the scan of the description raises
    AttributeError and "Acme" is not returned. *)
Lemma null_description_defeats_explicit_brand :
  ~ resolves_by_priority
      {[ "brand" := PStr "Acme"; "title" := PStr "Nike Air Max"; "description" := PNone ]}.
Proof. unfold resolves_by_priority. vm_compute. discriminate. Qed.

(** C4, amended: on a record whose title and description are text (or absent),
    the brand is the explicit [brand] value when present and non-empty,
    else the first listed brand found in the title, else the first listed
    brand found in the description, else null; a scan finds the first entry
    of the list, in the list's order, whose name occurs in the text with
    case ignored.  With explicit brand "Acme" and "Nike" in the title the
    result is "Acme". *)
Theorem brand_resolution_priority :
  (forall raw : gmap string pyval,
      text_or_missing raw "title" = true ->
      text_or_missing raw "description" = true ->
      _extract_brand raw = Ok (resolve_brand raw))
  /\ (forall text b : string,
        scan text = Some b <->
        exists before after, known_brands = (before ++ b :: after)%list
          /\ (exists pre post, str_lower text = pre +:+ str_lower b +:+ post)
          /\ Forall (fun b' => ~ exists pre post,
                                   str_lower text = pre +:+ str_lower b' +:+ post)
               before)
  /\ (forall (raw : gmap string pyval) (title : string),
        raw !! "brand" = Some (PStr "Acme") ->
        raw !! "title" = Some (PStr title) ->
        scan title = Some "Nike" ->
        text_or_missing raw "description" = true ->
        _extract_brand raw = Ok (PStr "Acme")).
Proof.
  split; [exact extract_brand_text|]. split; [exact scan_first_listed|].
  intros raw title Hb Ht _ Hd. rewrite extract_brand_text; [| |exact Hd].
  - unfold resolve_brand, explicit_brand. rewrite Hb. reflexivity.
  - unfold text_or_missing. rewrite Ht. reflexivity.
Qed.

Lemma brand_resolution_priority_witness :
  let raw : gmap string pyval :=
    {[ "brand" := PStr "Acme"; "title" := PStr "Nike Air Max" ]} in
  text_or_missing raw "title" = true
  /\ text_or_missing raw "description" = true
  /\ scan "Nike Air Max" = Some "Nike"
  /\ _extract_brand raw = Ok (PStr "Acme").
Proof.
  intros raw. do 3 (split; [reflexivity|]).
  exact (proj2 (proj2 brand_resolution_priority) raw "Nike Air Max"
           eq_refl eq_refl eq_refl eq_refl).
Defined.

(** C9: a brand found by scanning the title or the description is one of
    the five list entries, spelled as in the list; "nike air max" gives
    "Nike". *)
Theorem scanned_brand_is_listed :
  (forall (text r : pyval),
      _find_brand_in_title text = Ok r \/ _find_brand_in_description text = Ok r ->
      r = PNone \/ In r [PStr "Nike"; PStr "Adidas"; PStr "Apple"; PStr "Samsung"; PStr "Sony"])
  /\ (forall (raw : gmap string pyval) (b : pyval),
        explicit_brand raw = None ->
        _extract_brand raw = Ok b ->
        b = PNone \/ In b [PStr "Nike"; PStr "Adidas"; PStr "Apple"; PStr "Samsung"; PStr "Sony"])
  /\ _find_brand_in_title (PStr "nike air max") = Ok (PStr "Nike").
Proof.
  assert (Hfind : forall text r, find_brand brands text = Ok r ->
            r = PNone \/ In r [PStr "Nike"; PStr "Adidas"; PStr "Apple"; PStr "Samsung"; PStr "Sony"]).
  { intros text r H. apply find_brand_listed in H as [->|(b & -> & Hin)]; [by left|].
    right. change (In (PStr b) (PStr <$> brands)). apply in_map. exact Hin. }
  split; [|split; [|reflexivity]].
  - intros text r [H|H]; exact (Hfind _ _ H).
  - intros raw b Hexp. unfold _extract_brand, _find_brand_in_title, _find_brand_in_description.
    destruct (find_brand brands (get raw "title" (PStr ""))) as [t|e] eqn:Et;
      [|discriminate].
    destruct (find_brand brands (get raw "description" (PStr ""))) as [d|e] eqn:Ed;
      [|discriminate].
    rewrite !bind_Ok. intros [= <-].
    assert (Hfalsy : truthy (get raw "brand" PNone) = false).
    { unfold explicit_brand in Hexp. unfold get.
      destruct (raw !! "brand") as [v|]; [|reflexivity].
      cbn [default from_option id]. destruct (truthy v); [discriminate Hexp | reflexivity]. }
    unfold first_truthy. cbn [List.find]. rewrite Hfalsy.
    destruct (Hfind _ _ Et) as [->|Ht].
    + cbn [truthy]. destruct (Hfind _ _ Ed) as [->|Hd]; [by left|].
      right. simpl in Hd.
      repeat (destruct Hd as [<-|Hd]; [cbn; tauto|]). destruct Hd.
    + right. simpl in Ht.
      repeat (destruct Ht as [<-|Ht]; [cbn; tauto|]). destruct Ht.
Qed.

Lemma scanned_brand_is_listed_witness :
  let raw : gmap string pyval := {[ "description" := PStr "old SONY walkman" ]} in
  explicit_brand raw = None
  /\ _extract_brand raw = Ok (PStr "Sony")
  /\ (PStr "Sony" = PNone
      \/ In (PStr "Sony") [PStr "Nike"; PStr "Adidas"; PStr "Apple"; PStr "Samsung"; PStr "Sony"]).
Proof.
  intros raw. split; [reflexivity|]. split; [reflexivity|].
  exact (proj1 (proj2 scanned_brand_is_listed) raw (PStr "Sony") eq_refl eq_refl).
Defined.

End Brand.

(** ** The listing normalizer *)

Section Listing.
Import MercariListingNormalizer.
Implicit Types (raw : gmap string pyval) (e : exn).

(** The record assembled once every entry has been evaluated. *)
Lemma normalize_listing_Ok raw (r : gmap string pyval) :
  normalize_listing raw = Ok r <->
  exists price c brand shipping_cost,
    float (get raw "price" (PInt 0)) = Ok price
    /\ normalize_condition (get raw "condition" (PStr "Unknown")) = Ok c
    /\ _extract_brand raw = Ok brand
    /\ float (get raw "shipping_cost" (PInt 0)) = Ok shipping_cost
    /\ r = {[ "platform" := PStr "Mercari";
              "platform_id" := get raw "id" PNone;
              "title" := get raw "title" (PStr "");
              "description" := get raw "description" (PStr "");
              "price" := PFloat price;
              "images" := get raw "image_urls" (PList []);
              "condition" := PStr (name c);
              "seller_info" := PDict (extract_seller_info raw);
              "category" := get raw "category" (PStr "Unknown");
              "brand" := brand;
              "shipping_cost" := PFloat shipping_cost;
              "shipping_method" := get raw "shipping_method" (PStr "Unknown");
              "url" := get raw "listing_url" PNone ]}.
Proof.
  unfold normalize_listing. split.
  - destruct (float (get raw "price" (PInt 0))) as [p|]; [|discriminate].
    destruct (normalize_condition _) as [c|]; [|discriminate].
    destruct (_extract_brand raw) as [b|]; [|discriminate].
    destruct (float (get raw "shipping_cost" (PInt 0))) as [sc|]; [|discriminate].
    rewrite !bind_Ok. intros [= <-]. exists p, c, b, sc. repeat split.
  - intros (p & c & b & sc & -> & -> & -> & -> & ->). reflexivity.
Qed.

(** The first entry that raises decides the exception: the price, then the
    condition, then the brand, then the shipping cost. *)
Lemma normalize_listing_Raise raw e :
  normalize_listing raw = Raise e <->
  float (get raw "price" (PInt 0)) = Raise e
  \/ (exists price, float (get raw "price" (PInt 0)) = Ok price
      /\ (normalize_condition (get raw "condition" (PStr "Unknown")) = Raise e
          \/ (exists c, normalize_condition (get raw "condition" (PStr "Unknown")) = Ok c
              /\ (_extract_brand raw = Raise e
                  \/ (exists brand, _extract_brand raw = Ok brand
                      /\ float (get raw "shipping_cost" (PInt 0)) = Raise e))))).
Proof.
  unfold normalize_listing.
  destruct (float (get raw "price" (PInt 0))) as [p|e1].
  2:{ rewrite bind_Raise. split; [intros [= ->]; by left|].
      intros [[= ->]|(? & [=] & _)]. reflexivity. }
  rewrite bind_Ok.
  destruct (normalize_condition _) as [c|e2].
  2:{ rewrite bind_Raise. split.
      - intros [= ->]. right. exists p. split; [reflexivity | by left].
      - intros [[=]|(? & _ & [[= ->]|(? & [=] & _)])]. reflexivity. }
  rewrite bind_Ok.
  destruct (_extract_brand raw) as [b|e3].
  2:{ rewrite bind_Raise. split.
      - intros [= ->]. right. exists p. split; [reflexivity|]. right.
        exists c. split; [reflexivity | by left].
      - intros [[=]|(? & _ & [[=]|(? & _ & [[= ->]|(? & [=] & _)])])]. reflexivity. }
  rewrite bind_Ok.
  destruct (float (get raw "shipping_cost" (PInt 0))) as [sc|e4].
  - rewrite bind_Ok. split; [discriminate|].
    intros [[=]|(? & _ & [[=]|(? & _ & [[=]|(? & _ & [=])])])].
  - rewrite bind_Raise. split.
    + intros [= ->]. right. exists p. split; [reflexivity|]. right.
      exists c. split; [reflexivity|]. right. exists b. split; reflexivity.
    + intros [[=]|(? & _ & [[=]|(? & _ & [[=]|(? & _ & [= ->])])])]. reflexivity.
Qed.

Lemma float_raises (v : pyval) e :
  float v = Raise e -> e = TypeError \/ e = ValueError \/ e = OverflowError.
Proof.
  assert (Hint : forall z, float_of_int z = Raise e -> e = OverflowError).
  { intros z. unfold float_of_int. destruct (binary_normalize _ _ _ _ _); congruence. }
  destruct v as [|b|z|f|s|l|d]; simpl; intros H;
    try (injection H as <-; tauto); try discriminate H;
    try (apply Hint in H; tauto).
  unfold float_of_string in H.
  destruct (if contains "_" s then _ else _); [|injection H as <-; tauto].
  destruct (parse_decimal _); [discriminate H|].
  destruct (parse_inf_or_nan _); [discriminate H | injection H as <-; tauto].
Qed.

Lemma normalize_condition_raises (v : pyval) e :
  normalize_condition v = Raise e -> e = AttributeError.
Proof.
  destruct v; try rewrite normalize_condition_text;
    unfold normalize_condition; cbn [lower]; rewrite ?bind_Raise; congruence.
Qed.

Lemma find_brand_raises (bs : list string) (v : pyval) e :
  find_brand bs v = Raise e -> e = AttributeError.
Proof.
  induction bs as [|b bs IH]; cbn [find_brand]; [discriminate|].
  destruct v; cbn [lower]; rewrite ?bind_Raise, ?bind_Ok; try congruence.
  destruct (contains _ _); [discriminate | exact IH].
Qed.

Lemma extract_brand_raises raw e : _extract_brand raw = Raise e -> e = AttributeError.
Proof.
  unfold _extract_brand, _find_brand_in_title, _find_brand_in_description.
  destruct (find_brand brands (get raw "title" _)) eqn:Et.
  - destruct (find_brand brands (get raw "description" _)) eqn:Ed; [discriminate|].
    rewrite bind_Ok, bind_Raise. intros [= <-]. exact (find_brand_raises _ _ _ Ed).
  - rewrite bind_Raise. intros [= <-]. exact (find_brand_raises _ _ _ Et).
Qed.

Lemma normalize_condition_typed raw :
  text_or_missing raw "condition" = true ->
  exists c, normalize_condition (get raw "condition" (PStr "Unknown")) = Ok c.
Proof.
  unfold text_or_missing, get. destruct (raw !! "condition") as [[]|];
    cbn [default from_option id]; intros H; try discriminate H;
    rewrite normalize_condition_text; eexists; reflexivity.
Qed.

End Listing.

Section ListingClaims.
Import MercariListingNormalizer.
Implicit Types (raw : gmap string pyval) (e : exn).

Lemma get_agree raw1 raw2 key dflt :
  raw1 !! key = raw2 !! key -> get raw1 key dflt = get raw2 key dflt.
Proof. unfold get. by intros ->. Qed.

(** The outcome depends on the raw record only through the keys read. *)
Lemma normalize_listing_reads raw1 raw2 :
  Forall (fun key => raw1 !! key = raw2 !! key) read_keys ->
  normalize_listing raw1 = normalize_listing raw2.
Proof.
  intros H. unfold read_keys in H.
  repeat match type of H with
         | Forall _ (_ :: _) => apply Forall_cons_1 in H as [? H]
         end.
  unfold normalize_listing, _extract_brand, extract_seller_info.
  repeat match goal with
         | E : raw1 !! ?k = raw2 !! ?k |- _ =>
             rewrite !(get_agree raw1 raw2 k _ E); clear E
         end.
  reflexivity.
Qed.

(** C7: whenever a record is returned it has exactly the thirteen
    documented keys, whatever keys the raw record had, and its platform is
    "Mercari". *)
Theorem canonical_record_keys raw (r : gmap string pyval) :
  normalize_listing raw = Ok r ->
  dom r = {[ "platform"; "platform_id"; "title"; "description"; "price"; "images";
             "condition"; "seller_info"; "category"; "brand"; "shipping_cost";
             "shipping_method"; "url" ]}
  /\ size r = 13%nat
  /\ r !! "platform" = Some (PStr "Mercari").
Proof.
  intros H. apply normalize_listing_Ok in H as (p & c & b & sc & _ & _ & _ & _ & ->).
  repeat split.
Qed.

Lemma canonical_record_keys_witness :
  exists r : gmap string pyval,
    normalize_listing ∅ = Ok r
    /\ dom r = canonical_keys /\ size r = 13%nat /\ r !! "platform" = Some (PStr "Mercari").
Proof.
  eexists. split; [reflexivity|].
  exact (canonical_record_keys ∅ _ eq_refl).
Defined.

(** C5, as the specification words it, fails on a record whose condition
    is null and whose shipping cost is not a number: the shipping cost cannot
    be converted, yet the call raises AttributeError (from the condition,
    evaluated first) and no type or value error. *)
Lemma null_condition_masks_bad_shipping_cost :
  ~ raises_iff_not_coercible {[ "condition" := PNone; "shipping_cost" := PStr "abc" ]}.
Proof.
  intros [_ H]. destruct H as (e & He & Hraise).
  - right. intros [f Hf]. vm_compute in Hf. discriminate Hf.
  - vm_compute in Hraise. injection Hraise as <-. destruct He; discriminate.
Qed.

(** A null title alone makes the call raise, with nothing to convert. *)
Lemma null_title_raises :
  normalize_listing {[ "title" := PNone ]} = Raise AttributeError.
Proof. vm_compute. reflexivity. Qed.

(** An integer price beyond the float range raises OverflowError. *)
Lemma huge_price_overflows :
  normalize_listing {[ "price" := PInt (10 ^ 400) ]} = Raise OverflowError.
Proof. vm_compute. reflexivity. Qed.

Lemma extract_brand_typed raw (b : pyval) :
  _extract_brand raw = Ok b ->
  text_or_missing raw "title" = true /\ text_or_missing raw "description" = true.
Proof.
  intros H. unfold _extract_brand, _find_brand_in_title, _find_brand_in_description in H.
  destruct (text_or_missing raw "title") eqn:Et.
  - destruct (text_or_missing raw "description") eqn:Ed; [by split|].
    rewrite (find_brand_not_text _ (get_not_text _ _ _ Ed)) in H.
    destruct (find_brand brands (get raw "title" _)); discriminate H.
  - rewrite (find_brand_not_text _ (get_not_text _ _ _ Et)) in H. discriminate H.
Qed.

(** On a record whose text fields are text, only the two conversions can
    raise, the price first. *)
Lemma normalize_listing_Raise_typed raw :
  text_or_missing raw "condition" = true ->
  text_or_missing raw "title" = true ->
  text_or_missing raw "description" = true ->
  forall e,
    normalize_listing raw = Raise e <->
    float (get raw "price" (PInt 0)) = Raise e
    \/ (coercible (get raw "price" (PInt 0))
        /\ float (get raw "shipping_cost" (PInt 0)) = Raise e).
Proof.
  intros Hc Ht Hd e.
  destruct (normalize_condition_typed raw Hc) as [c Hcond].
  rewrite normalize_listing_Raise, Hcond, (extract_brand_text raw Ht Hd). split.
  - intros [H|(p & Hp & [[=]|(c' & _ & [[=]|(b & _ & H)])])]; [by left|].
    right. split; [by exists p | exact H].
  - intros [H|[[p Hp] H]]; [by left|]. right. exists p. split; [exact Hp|].
    right. exists c. split; [reflexivity|]. right. eexists. split; [reflexivity | exact H].
Qed.


(** C5, amended.  A type or value error can only come from converting the
    price or the shipping cost.  On a record whose condition, title and
    description are text or absent, the call raises exactly when one of the
    two conversions raises, with that conversion's own exception (a type,
    value or overflow error), the price being converted first; otherwise it
    returns.  In a returned record every absent field holds its default and
    an unmatched condition or brand degrades to GOOD or null. *)
Theorem normalize_listing_failures :
  (forall raw e,
      normalize_listing raw = Raise e ->
      e = TypeError \/ e = ValueError ->
      float (get raw "price" (PInt 0)) = Raise e
      \/ float (get raw "shipping_cost" (PInt 0)) = Raise e)
  /\ (forall raw,
        text_or_missing raw "condition" = true ->
        text_or_missing raw "title" = true ->
        text_or_missing raw "description" = true ->
        (forall e,
            normalize_listing raw = Raise e <->
            float (get raw "price" (PInt 0)) = Raise e
            \/ (coercible (get raw "price" (PInt 0))
                /\ float (get raw "shipping_cost" (PInt 0)) = Raise e))
        /\ (forall e, normalize_listing raw = Raise e ->
                      e = TypeError \/ e = ValueError \/ e = OverflowError)
        /\ (coercible (get raw "price" (PInt 0)) ->
            coercible (get raw "shipping_cost" (PInt 0)) ->
            exists r, normalize_listing raw = Ok r))
  /\ (forall raw (r : gmap string pyval),
        normalize_listing raw = Ok r ->
        r !! "platform_id" = Some (default PNone (raw !! "id"))
        /\ r !! "title" = Some (default (PStr "") (raw !! "title"))
        /\ r !! "description" = Some (default (PStr "") (raw !! "description"))
        /\ r !! "images" = Some (default (PList []) (raw !! "image_urls"))
        /\ r !! "category" = Some (default (PStr "Unknown") (raw !! "category"))
        /\ r !! "shipping_method" = Some (default (PStr "Unknown") (raw !! "shipping_method"))
        /\ r !! "url" = Some (default PNone (raw !! "listing_url"))
        /\ r !! "brand" = Some (resolve_brand raw)
        /\ (raw !! "price" = None -> r !! "price" = Some (PFloat (S754_zero false)))
        /\ (raw !! "shipping_cost" = None ->
            r !! "shipping_cost" = Some (PFloat (S754_zero false)))
        /\ (raw !! "condition" = None -> r !! "condition" = Some (PStr "GOOD"))
        /\ (forall s, raw !! "condition" = Some (PStr s) ->
              first_match condition_mapping (str_lower s) = None ->
              r !! "condition" = Some (PStr "GOOD"))).
Proof.
  split; [|split].
  - intros raw e H He. apply normalize_listing_Raise in H.
    destruct H as [H|(p & _ & [H|(c & _ & [H|(b & _ & H)])])].
    + by left.
    + apply normalize_condition_raises in H as ->. destruct He; discriminate.
    + apply extract_brand_raises in H as ->. destruct He; discriminate.
    + by right.
  - intros raw Hc Ht Hd.
    pose proof (normalize_listing_Raise_typed raw Hc Ht Hd) as Hiff.
    split; [exact Hiff|]. split.
    + intros e H. apply Hiff in H as [H|[_ H]]; exact (float_raises _ _ H).
    + intros [p Hp] [sc Hsc].
      destruct (normalize_condition_typed raw Hc) as [c Hcond].
      eexists. apply normalize_listing_Ok.
      exists p, c, (resolve_brand raw), sc. repeat split; try assumption.
      exact (extract_brand_text raw Ht Hd).
  - intros raw r H.
    apply normalize_listing_Ok in H as (p & c & b & sc & Hp & Hc & Hb & Hsc & ->).
    destruct (extract_brand_typed raw b Hb) as [Ht Hd].
    rewrite (extract_brand_text raw Ht Hd) in Hb. injection Hb as <-.
    unfold get in *. do 8 (split; [reflexivity|]).
    split; [|split; [|split]].
    + intros E. rewrite E in Hp. injection Hp as <-. reflexivity.
    + intros E. rewrite E in Hsc. injection Hsc as <-. reflexivity.
    + intros E. rewrite E in Hc. injection Hc as <-. reflexivity.
    + intros s E Hnone. rewrite E in Hc. cbn [default from_option id] in Hc.
      rewrite normalize_condition_text, Hnone in Hc. injection Hc as <-. reflexivity.
Qed.

Lemma normalize_listing_failures_witness :
  let raw : gmap string pyval :=
    {[ "title" := PStr "Canon camera"; "condition" := PStr "Mint"; "price" := PStr "12.5e1";
       "shipping_cost" := PList [] ]} in
  (text_or_missing raw "condition" = true
   /\ text_or_missing raw "title" = true
   /\ text_or_missing raw "description" = true)
  /\ coercible (get raw "price" (PInt 0))
  /\ float (get raw "shipping_cost" (PInt 0)) = Raise TypeError
  /\ normalize_listing raw = Raise TypeError.
Proof.
  intros raw.
  assert (Hp : coercible (get raw "price" (PInt 0))).
  { eexists. vm_compute. reflexivity. }
  split; [repeat split|]. split; [exact Hp|]. split; [reflexivity|].
  apply (proj1 (proj1 (proj2 normalize_listing_failures) raw eq_refl eq_refl eq_refl)
           TypeError).
  right. split; [exact Hp | reflexivity].
Defined.




End ListingClaims.

(** ** The search client *)

Section SearchClaims.
Import MercariSearch.
Variable requests_get : string -> gmap string pyval -> gmap string string -> get_outcome.
Variable format : pyval -> string.
Implicit Types (self : client) (q : query).

(** An exception of the [requests] family never leaves [search]. *)
Lemma search_swallows_request_errors self q (k : request_error) :
  (search requests_get format self q).1 <> Raise (RequestException k).
Proof.
  unfold search. destruct (attempt _ _ self q) as [r|[]]; simpl; discriminate.
Qed.

Lemma attempt_failed_request self q :
  (exists k, requests_get (base_url self) (build_params q) (build_headers self)
             = GetRaises (RequestException k))
  \/ (exists r, requests_get (base_url self) (build_params q) (build_headers self)
                = GetReturns r
                /\ 400 <= status_code r < 600) ->
  exists k, attempt requests_get format self q = Raise (RequestException k).
Proof.
  unfold attempt. intros [[k ->]|(r & -> & Hlo & Hhi)].
  - by exists k.
  - exists HTTPError. unfold raise_for_status.
    apply Z.leb_le in Hlo. apply Z.ltb_lt in Hhi. rewrite Hlo, Hhi. reflexivity.
Qed.

(** C6: when the request fails in transport (the call raises an exception
    of the [requests] family, or the status is a 4xx or 5xx error) [search]
    returns the empty list, logs the error, and lets no exception through;
    the value returned is the one a successful search with no items
    returns. *)
Theorem failed_search_returns_empty self q :
  (exists k, requests_get (base_url self) (build_params q) (build_headers self)
             = GetRaises (RequestException k))
  \/ (exists r, requests_get (base_url self) (build_params q) (build_headers self)
                = GetReturns r
                /\ 400 <= status_code r < 600) ->
  (search requests_get format self q).1 = Ok []
  /\ (exists k, (search requests_get format self q).2 = [LogError (RequestException k)])
  /\ forall requests_get',
       requests_get' (base_url self) (build_params q) (build_headers self)
       = GetReturns {| status_code := 200;
                       json := Ok (PDict {[ "items" := PList [] ]}) |} ->
       (search requests_get' format self q).1 = (search requests_get format self q).1.
Proof.
  intros H. destruct (attempt_failed_request self q H) as [k Hk].
  unfold search at 1 2 4. rewrite Hk. simpl.
  split; [reflexivity|]. split; [by exists k|].
  intros requests_get' H'. unfold search, attempt. rewrite H'. reflexivity.
Qed.

End SearchClaims.

Lemma failed_search_returns_empty_witness :
  let down : string -> gmap string pyval -> gmap string string -> MercariSearch.get_outcome :=
    fun _ _ _ => MercariSearch.GetRaises (RequestException ConnectionError) in
  let q := {| MercariSearch.keywords := "nintendo switch";
              MercariSearch.category := Some "electronics";
              MercariSearch.condition := Some "like_new";
              MercariSearch.min_price := Some (PInt 100);
              MercariSearch.max_price := Some (PInt 300);
              MercariSearch.include_sold := false |} in
  (MercariSearch.search down (fun _ => "") (MercariSearch.init None) q).1 = Ok [].
Proof.
  intros down q.
  refine (proj1 (failed_search_returns_empty down (fun _ => "") (MercariSearch.init None) q _)).
  left. exists ConnectionError. reflexivity.
Defined.

(** * Further properties of the code *)

Import Shape.

(** ** Phrases inside phrases *)

Section MoreText.
Import Re.

Lemma append_assoc (a b c : string) : (a +:+ b) +:+ c = a +:+ b +:+ c.
Proof.
  induction a as [|x a IH]; [reflexivity|].
  rewrite !append_cons, IH. reflexivity.
Qed.

Lemma last_from_app (prev : option ascii) (a b : string) :
  last_from prev (a +:+ b) = last_from (last_from prev a) b.
Proof.
  revert prev. induction a as [|x a IH]; intros prev; [reflexivity|].
  rewrite append_cons. simpl. apply IH.
Qed.

(** A phrase that ends in a blank followed by [w] carries [w] itself as a
    whole phrase. *)
Lemma whole_phrase_tail (a w s : string) :
  whole_phrase (a +:+ " " +:+ w) s -> whole_phrase w s.
Proof.
  intros (pre & post & -> & _ & Hpost).
  exists (pre +:+ a +:+ " "), post. split; [|split; [|exact Hpost]].
  - rewrite !append_assoc. reflexivity.
  - rewrite !last_from_app. reflexivity.
Qed.

End MoreText.

(** ** The classifier as a decision table *)

Section DecisionTable.
Import MercariListingNormalizer.

(** The seven searches as seven truth values, each tied to its phrase in
    the lower-cased text, and the condition they select. *)
Lemma classifier_table (s : string) :
  exists like_new brand_new new very_good good acceptable poor flaws : bool,
    (like_new = true <-> whole_phrase "like new" (str_lower s))
    /\ (brand_new = true <-> whole_phrase "brand new" (str_lower s))
    /\ (new = true <-> whole_phrase "new" (str_lower s))
    /\ (very_good = true <-> whole_phrase "very good" (str_lower s))
    /\ (good = true <-> whole_phrase "good" (str_lower s))
    /\ (acceptable = true <-> whole_phrase "acceptable" (str_lower s))
    /\ (poor = true <-> whole_phrase "poor" (str_lower s))
    /\ (flaws = true <-> whole_phrase "has flaws" (str_lower s))
    /\ (like_new = true -> new = true)
    /\ (brand_new = true -> new = true)
    /\ (very_good = true -> good = true)
    /\ normalize_condition (PStr s)
       = Ok (if like_new then LIKE_NEW
             else if brand_new then NEW
             else if new then NEW
             else if very_good then VERY_GOOD
             else if good then GOOD
             else if acceptable then ACCEPTABLE
             else if poor || flaws then POOR
             else GOOD).
Proof.
  pose proof (fun w Hp Hf Hl => search_bounded_iff w (str_lower s) Hp Hf Hl) as R.
  exists (Re.search "\blike new\b" (str_lower s)), (Re.search "\bbrand new\b" (str_lower s)),
    (Re.search "\bnew\b" (str_lower s)), (Re.search "\bvery good\b" (str_lower s)),
    (Re.search "\bgood\b" (str_lower s)), (Re.search "\bacceptable\b" (str_lower s)),
    (Re.search "\bpoor\b" (str_lower s)), (Re.search "\bhas flaws\b" (str_lower s)).
  split; [exact (R "like new" eq_refl eq_refl eq_refl)|].
  split; [exact (R "brand new" eq_refl eq_refl eq_refl)|].
  split; [exact (R "new" eq_refl eq_refl eq_refl)|].
  split; [exact (R "very good" eq_refl eq_refl eq_refl)|].
  split; [exact (R "good" eq_refl eq_refl eq_refl)|].
  split; [exact (R "acceptable" eq_refl eq_refl eq_refl)|].
  split; [exact (R "poor" eq_refl eq_refl eq_refl)|].
  split; [exact (R "has flaws" eq_refl eq_refl eq_refl)|].
  split; [|split; [|split]].
  - intros H. apply (R "like new" eq_refl eq_refl eq_refl) in H.
    apply (R "new" eq_refl eq_refl eq_refl). exact (whole_phrase_tail "like" "new" _ H).
  - intros H. apply (R "brand new" eq_refl eq_refl eq_refl) in H.
    apply (R "new" eq_refl eq_refl eq_refl). exact (whole_phrase_tail "brand" "new" _ H).
  - intros H. apply (R "very good" eq_refl eq_refl eq_refl) in H.
    apply (R "good" eq_refl eq_refl eq_refl). exact (whole_phrase_tail "very" "good" _ H).
  - rewrite normalize_condition_text. unfold condition_mapping. cbn [first_match].
    rewrite search_poor_or_flaws.
    repeat match goal with |- context [if ?b then _ else _] => destruct b end; reflexivity.
Qed.

End DecisionTable.

Section ClassifierResults.
Import MercariListingNormalizer.

Ltac by_table s :=
  destruct (classifier_table s)
    as (ln & bn & nw & vg & gd & ac & po & fl
        & Hln & Hbn & Hnw & Hvg & Hgd & Hac & Hpo & Hfl & Iln & Ibn & Ivg & ->);
  rewrite <- ?Hln, <- ?Hbn, <- ?Hnw, <- ?Hvg, <- ?Hgd, <- ?Hac, <- ?Hpo, <- ?Hfl;
  clear Hln Hbn Hnw Hvg Hgd Hac Hpo Hfl;
  destruct ln, bn, nw, vg, gd, ac, po, fl; cbn [orb];
  try (exfalso; (discriminate (Iln eq_refl) || discriminate (Ibn eq_refl)
                 || discriminate (Ivg eq_refl)));
  clear Iln Ibn Ivg; intuition congruence.

(** X1: a text is classified LIKE_NEW exactly when "like new" stands as a
    whole phrase in the lower-cased text. *)
Theorem like_new_iff (s : string) :
  normalize_condition (PStr s) = Ok LIKE_NEW <-> whole_phrase "like new" (str_lower s).
Proof. by_table s. Qed.

(** X2: a text is classified NEW exactly when, in the lower-cased text,
    the word "new" stands and the phrase "like new" does not; the "brand new"
    pattern never changes the answer. *)
Theorem new_iff (s : string) :
  normalize_condition (PStr s) = Ok NEW
  <-> whole_phrase "new" (str_lower s) /\ ~ whole_phrase "like new" (str_lower s).
Proof. by_table s. Qed.

(** X3: VERY_GOOD is the answer exactly when "very good" stands in the
    lower-cased text and the word "new" does not. *)
Theorem very_good_iff (s : string) :
  normalize_condition (PStr s) = Ok VERY_GOOD
  <-> whole_phrase "very good" (str_lower s) /\ ~ whole_phrase "new" (str_lower s).
Proof. by_table s. Qed.

(** X4: GOOD is the answer exactly when neither "new" nor "very good"
    stands in the lower-cased text and either the word "good" does or none of
    "acceptable", "poor" and "has flaws" does. *)
Theorem good_iff (s : string) :
  normalize_condition (PStr s) = Ok GOOD
  <-> ~ whole_phrase "new" (str_lower s) /\ ~ whole_phrase "very good" (str_lower s)
      /\ (whole_phrase "good" (str_lower s)
          \/ (~ whole_phrase "acceptable" (str_lower s)
              /\ ~ whole_phrase "poor" (str_lower s)
              /\ ~ whole_phrase "has flaws" (str_lower s))).
Proof. by_table s. Qed.

(** X5: ACCEPTABLE is the answer exactly when "acceptable" stands in the
    lower-cased text and neither "new" nor "good" does. *)
Theorem acceptable_iff (s : string) :
  normalize_condition (PStr s) = Ok ACCEPTABLE
  <-> whole_phrase "acceptable" (str_lower s)
      /\ ~ whole_phrase "new" (str_lower s) /\ ~ whole_phrase "good" (str_lower s).
Proof. by_table s. Qed.

(** X6: POOR is the answer exactly when "poor" or "has flaws" stands in
    the lower-cased text and none of "new", "good" and "acceptable" does. *)
Theorem poor_iff (s : string) :
  normalize_condition (PStr s) = Ok POOR
  <-> (whole_phrase "poor" (str_lower s) \/ whole_phrase "has flaws" (str_lower s))
      /\ ~ whole_phrase "new" (str_lower s) /\ ~ whole_phrase "good" (str_lower s)
      /\ ~ whole_phrase "acceptable" (str_lower s).
Proof. by_table s. Qed.

End ClassifierResults.

(** ** When the normalizer returns and when it raises *)

Section ListingOutcome.
Import MercariListingNormalizer.
Implicit Types (raw : gmap string pyval) (e : exn).

Lemma normalize_condition_text_iff raw :
  (exists c, normalize_condition (get raw "condition" (PStr "Unknown")) = Ok c)
  <-> text_or_missing raw "condition" = true.
Proof.
  split; [|apply normalize_condition_typed].
  intros [c H]. destruct (text_or_missing raw "condition") eqn:E; [reflexivity|].
  unfold normalize_condition in H. rewrite (get_not_text _ _ _ E), bind_Raise in H.
  discriminate H.
Qed.

Lemma float_not_attribute_error (v : pyval) : float v <> Raise AttributeError.
Proof. intros H. apply float_raises in H as [H|[H|H]]; discriminate H. Qed.

(** X7: the brand resolver raises exactly when the title or the
    description is present and is not text, whether or not an explicit brand
    is given; what it raises is AttributeError. *)
Theorem extract_brand_raises_iff raw :
  ((exists e, _extract_brand raw = Raise e)
   <-> text_or_missing raw "title" = false \/ text_or_missing raw "description" = false)
  /\ (forall e, _extract_brand raw = Raise e -> e = AttributeError).
Proof.
  split; [|intros e; apply extract_brand_raises]. split.
  - intros [e H].
    destruct (text_or_missing raw "title") eqn:Et; [|by left].
    destruct (text_or_missing raw "description") eqn:Ed; [|by right].
    rewrite (extract_brand_text raw Et Ed) in H. discriminate H.
  - intros H. destruct (_extract_brand raw) as [b|e] eqn:E; [|by exists e].
    apply extract_brand_typed in E as [Et Ed]. destruct H as [H|H]; congruence.
Qed.

(** X8: the brand returned is null or a non-empty value: an explicit
    brand that is empty (an empty text, zero, an empty list) is never handed
    back. *)
Theorem extract_brand_null_or_truthy raw (b : pyval) :
  _extract_brand raw = Ok b -> b = PNone \/ truthy b = true.
Proof.
  unfold _extract_brand.
  destruct (_find_brand_in_title _) as [t|]; [|discriminate].
  destruct (_find_brand_in_description _) as [d|]; [|discriminate].
  rewrite !bind_Ok. intros [= <-]. unfold first_truthy.
  destruct (List.find truthy _) as [v|] eqn:E; [|by left].
  right. apply find_some in E as [_ E]. exact E.
Qed.

Lemma extract_brand_null_or_truthy_witness :
  let raw : gmap string pyval := {[ "brand" := PStr ""; "title" := PStr "Samsung Galaxy" ]} in
  _extract_brand raw = Ok (PStr "Samsung")
  /\ (PStr "Samsung" = PNone \/ truthy (PStr "Samsung") = true).
Proof.
  intros raw. split; [reflexivity|].
  exact (extract_brand_null_or_truthy raw (PStr "Samsung") eq_refl).
Defined.

(** X9: a scan of a title gives null exactly when no entry of the brand
    list occurs in the title with case ignored. *)
Theorem find_brand_none_iff (title : string) :
  _find_brand_in_title (PStr title) = Ok PNone
  <-> Forall (fun b => ~ exists pre post,
                          str_lower title = pre +:+ str_lower b +:+ post) brands.
Proof.
  unfold _find_brand_in_title. rewrite find_brand_text.
  set (hit := fun b => contains (str_lower b) (str_lower title)).
  split.
  - intros H. apply Forall_forall. intros b Hb Hsub.
    apply contains_spec in Hsub.
    destruct (List.find hit brands) as [b'|] eqn:E; [discriminate H|].
    apply list_elem_of_In in Hb.
    pose proof (find_none _ _ E b Hb) as Hno. unfold hit in Hno. congruence.
  - intros H. destruct (List.find hit brands) as [b'|] eqn:E; [|reflexivity].
    exfalso. apply find_some in E as [Hin Hhit].
    rewrite Forall_forall in H. apply (H b'); [by apply list_elem_of_In|].
    by apply contains_spec.
Qed.

Lemma listing_returns_iff raw :
  (exists r, normalize_listing raw = Ok r)
  <-> coercible (get raw "price" (PInt 0))
      /\ coercible (get raw "shipping_cost" (PInt 0))
      /\ text_or_missing raw "condition" = true
      /\ text_or_missing raw "title" = true
      /\ text_or_missing raw "description" = true.
Proof.
  split.
  - intros [r H]. apply normalize_listing_Ok in H as (p & c & b & sc & Hp & Hc & Hb & Hsc & _).
    apply extract_brand_typed in Hb as [Ht Hd].
    split; [by exists p|]. split; [by exists sc|].
    split; [apply normalize_condition_text_iff; by exists c | by split].
  - intros ([p Hp] & [sc Hsc] & Hc & Ht & Hd).
    destruct (normalize_condition_typed raw Hc) as [c Hcond].
    eexists. apply normalize_listing_Ok.
    exists p, c, (resolve_brand raw), sc. repeat split; try assumption.
    exact (extract_brand_text raw Ht Hd).
Qed.

(** X10: the normalizer returns a record exactly when the price and the
    shipping cost (0 when absent) are accepted by [float] and the condition,
    the title and the description are text or absent. *)
Theorem normalize_listing_returns_iff raw :
  (exists r, normalize_listing raw = Ok r)
  <-> coercible (get raw "price" (PInt 0))
      /\ coercible (get raw "shipping_cost" (PInt 0))
      /\ text_or_missing raw "condition" = true
      /\ text_or_missing raw "title" = true
      /\ text_or_missing raw "description" = true.
Proof. exact (listing_returns_iff raw). Qed.

(** X11: the normalizer raises AttributeError exactly when the price is
    accepted by [float] and the condition, the title or the description is
    present without being text. *)
Theorem normalize_listing_attribute_error_iff raw :
  normalize_listing raw = Raise AttributeError
  <-> coercible (get raw "price" (PInt 0))
      /\ (text_or_missing raw "condition" = false
          \/ text_or_missing raw "title" = false
          \/ text_or_missing raw "description" = false).
Proof.
  rewrite normalize_listing_Raise. split.
  - intros [H|(p & Hp & H)]; [by apply float_not_attribute_error in H|].
    split; [by exists p|].
    destruct (text_or_missing raw "condition") eqn:Ec; [|by left]. right.
    destruct (text_or_missing raw "title") eqn:Et; [|by left]. right.
    destruct (text_or_missing raw "description") eqn:Ed; [|reflexivity]. exfalso.
    destruct (normalize_condition_typed raw Ec) as [c Hc].
    rewrite Hc, (extract_brand_text raw Et Ed) in H.
    destruct H as [[=]|(c' & _ & [[=]|(b & _ & H)])].
    by apply float_not_attribute_error in H.
  - intros [[p Hp] H]. right. exists p. split; [exact Hp|].
    destruct (text_or_missing raw "condition") eqn:Ec.
    + right. destruct (normalize_condition_typed raw Ec) as [c Hc]. exists c.
      split; [exact Hc|]. left.
      destruct (_extract_brand raw) as [b|e] eqn:E.
      * apply extract_brand_typed in E as [Et Ed].
        destruct H as [H|[H|H]]; congruence.
      * by rewrite (extract_brand_raises _ _ E).
    + left. unfold normalize_condition. by rewrite (get_not_text _ _ _ Ec), bind_Raise.
Qed.

(** X12: in every returned record the price and the shipping cost are
    floats, the condition is the name of the classifier's answer (and the
    name tells the answer), and the seller information is a dictionary with
    exactly its four keys. *)
Theorem canonical_record_shape raw (r : gmap string pyval) :
  normalize_listing raw = Ok r ->
  (exists p, r !! "price" = Some (PFloat p)
             /\ float (get raw "price" (PInt 0)) = Ok p)
  /\ (exists sc, r !! "shipping_cost" = Some (PFloat sc)
                 /\ float (get raw "shipping_cost" (PInt 0)) = Ok sc)
  /\ (exists c, r !! "condition" = Some (PStr (name c))
                /\ normalize_condition (get raw "condition" (PStr "Unknown")) = Ok c
                /\ forall c', name c' = name c -> c' = c)
  /\ (exists si : gmap string pyval,
        r !! "seller_info" = Some (PDict si)
        /\ si = extract_seller_info raw
        /\ dom si = {[ "seller_name"; "seller_rating"; "total_sales"; "joined_date" ]}).
Proof.
  intros H. apply normalize_listing_Ok in H as (p & c & b & sc & Hp & Hc & _ & Hsc & ->).
  split; [by exists p|]. split; [by exists sc|]. split.
  - exists c. split; [reflexivity|]. split; [exact Hc|].
    intros c'. destruct c, c'; (reflexivity || discriminate).
  - exists (extract_seller_info raw). split; [reflexivity|]. split; [reflexivity|].
    unfold extract_seller_info. rewrite !dom_insert_L, dom_singleton_L. set_solver.
Qed.

Lemma canonical_record_shape_witness :
  let raw : gmap string pyval := {[ "price" := PInt 25; "condition" := PStr "Very good" ]} in
  exists r : gmap string pyval,
    normalize_listing raw = Ok r
    /\ exists c, r !! "condition" = Some (PStr (name c))
                 /\ normalize_condition (get raw "condition" (PStr "Unknown")) = Ok c
                 /\ forall c', name c' = name c -> c' = c.
Proof.
  intros raw. eexists. split; [reflexivity|].
  exact (proj1 (proj2 (proj2 (canonical_record_shape raw _ eq_refl)))).
Defined.

End ListingOutcome.

(** ** The request the search client builds *)

Section Request.
Import MercariSearch.
Implicit Types (q : query) (self : client).

Lemma set_if_lookup {A} (o : option A) (key : string) (f : A -> pyval)
    (params : gmap string pyval) (k : string) :
  set_if o key f params !! k
  = if decide (key = k) then match o with Some a => Some (f a) | None => params !! k end
    else params !! k.
Proof.
  destruct o as [a|]; simpl.
  - rewrite lookup_insert. destruct (decide (key = k)); reflexivity.
  - destruct (decide (key = k)); reflexivity.
Qed.

(** Every entry of the query parameters. *)
Lemma build_params_lookup q (k : string) :
  build_params q !! k =
  if decide (k = "status") then (if include_sold q then None else Some (PStr "on_sale"))
  else if decide (k = "price_max") then max_price q
  else if decide (k = "price_min") then min_price q
  else if decide (k = "condition") then
    (fun c => PStr (default c (condition_map !! str_lower c))) <$> nonempty (condition q)
  else if decide (k = "category_id") then PStr <$> nonempty (category q)
  else if decide (k = "keyword") then Some (PStr (keywords q))
  else if decide (k = "limit") then Some (PInt 100)
  else None.
Proof.
  unfold build_params.
  set (p0 := ({[ "keyword" := PStr (keywords q); "limit" := PInt 100 ]} : gmap string pyval)).
  assert (H0 : forall k', p0 !! k' =
            if decide (k' = "keyword") then Some (PStr (keywords q))
            else if decide (k' = "limit") then Some (PInt 100) else None).
  { intros k'. unfold p0. rewrite lookup_insert.
    destruct (decide ("keyword" = k')) as [<-|Hk]; [reflexivity|].
    destruct (decide (k' = "keyword")); [congruence|].
    rewrite lookup_singleton. destruct (decide ("limit" = k')) as [<-|Hl]; [reflexivity|].
    destruct (decide (k' = "limit")); [congruence | reflexivity]. }
  destruct (decide (k = "status")) as [->|Hs].
  - destruct (include_sold q).
    + rewrite !set_if_lookup. repeat (destruct (decide _); [discriminate|]).
      rewrite H0. reflexivity.
    + apply lookup_insert_eq.
  - assert (Hstatus : forall m : gmap string pyval,
              (if include_sold q then m else <[ "status" := PStr "on_sale" ]> m) !! k = m !! k).
    { intros m. destruct (include_sold q); [reflexivity|]. by rewrite lookup_insert_ne. }
    rewrite Hstatus, !set_if_lookup.
    destruct (decide (k = "price_max")) as [->|Hmax].
    { destruct (max_price q); [reflexivity|].
      rewrite decide_True by reflexivity.
      repeat (destruct (decide _); [discriminate|]). rewrite H0. reflexivity. }
    rewrite (decide_False (P := "price_max" = k)) by congruence.
    destruct (decide (k = "price_min")) as [->|Hmin].
    { rewrite decide_True by reflexivity. destruct (min_price q); [reflexivity|].
      repeat (destruct (decide _); [discriminate|]). rewrite H0. reflexivity. }
    rewrite (decide_False (P := "price_min" = k)) by congruence.
    destruct (decide (k = "condition")) as [->|Hc].
    { rewrite decide_True by reflexivity. destruct (nonempty (condition q)); [reflexivity|].
      repeat (destruct (decide _); [discriminate|]). rewrite H0. reflexivity. }
    rewrite (decide_False (P := "condition" = k)) by congruence.
    destruct (decide (k = "category_id")) as [->|Hcat].
    { rewrite decide_True by reflexivity. destruct (nonempty (category q)); [reflexivity|].
      rewrite H0. reflexivity. }
    rewrite (decide_False (P := "category_id" = k)) by congruence.
    apply H0.
Qed.

Lemma nonempty_None (o : option string) :
  nonempty o = None <-> o = None \/ o = Some "".
Proof.
  destruct o as [s|]; simpl; [|by split; [left|]].
  destruct (String.eqb s "") eqn:E.
  - apply String.eqb_eq in E as ->. split; [by right | done].
  - apply String.eqb_neq in E. split; [discriminate|]. intros [[=]|[= ->]]. by destruct E.
Qed.

Lemma nonempty_Some (o : option string) (s : string) :
  o = Some s -> s <> "" -> nonempty o = Some s.
Proof. intros -> H. simpl. apply String.eqb_neq in H. by rewrite H. Qed.

Lemma condition_map_lookup (x : string) :
  condition_map !! x =
  if decide (x = "new") then Some "1"
  else if decide (x = "like_new") then Some "2"
  else if decide (x = "good") then Some "3"
  else if decide (x = "fair") then Some "4"
  else None.
Proof.
  unfold condition_map.
  repeat (rewrite lookup_insert;
          match goal with
          | |- context [decide (?a = x)] =>
              destruct (decide (a = x)) as [<-|?]; [reflexivity|];
              destruct (decide (x = a)); [congruence|]
          end).
  rewrite lookup_singleton. destruct (decide ("fair" = x)) as [<-|?]; [reflexivity|].
  destruct (decide (x = "fair")); [congruence | reflexivity].
Qed.

(** X13: every request carries the keyword and the limit 100, carries
    [status = on_sale] exactly when sold items are not asked for, and never
    carries a parameter other than keyword, limit, category_id, condition,
    price_min, price_max and status. *)
Theorem request_fixed_parameters q :
  build_params q !! "keyword" = Some (PStr (keywords q))
  /\ build_params q !! "limit" = Some (PInt 100)
  /\ build_params q !! "status"
     = (if include_sold q then None else Some (PStr "on_sale"))
  /\ dom (build_params q)
     ⊆ {[ "keyword"; "limit"; "category_id"; "condition"; "price_min"; "price_max";
          "status" ]}.
Proof.
  rewrite !build_params_lookup. do 3 (split; [reflexivity|]).
  intros k Hk. apply elem_of_dom in Hk as [v Hv]. rewrite build_params_lookup in Hv.
  repeat match type of Hv with
         | (if decide (k = ?a) then _ else _) = _ =>
             destruct (decide (k = a)) as [->|?]; [set_solver|]
         end.
  discriminate Hv.
Qed.

(** X14: a filter is left out exactly when it is not given or, for the
    category and the condition, given as the empty text; a category is sent
    unchanged, and a price bound is sent as given, a bound of 0 included. *)
Theorem request_optional_filters q :
  (build_params q !! "category_id" = None
   <-> category q = None \/ category q = Some "")
  /\ (forall c, category q = Some c -> c <> "" ->
        build_params q !! "category_id" = Some (PStr c))
  /\ (build_params q !! "condition" = None
      <-> condition q = None \/ condition q = Some "")
  /\ build_params q !! "price_min" = min_price q
  /\ build_params q !! "price_max" = max_price q.
Proof.
  rewrite !build_params_lookup. cbn [decide]. repeat split.
  - intros H. apply nonempty_None. by destruct (nonempty (category q)).
  - intros H. apply nonempty_None in H. by rewrite H.
  - intros c Hc Hne. by rewrite (nonempty_Some _ _ Hc Hne).
  - intros H. apply nonempty_None. by destruct (nonempty (condition q)).
  - intros H. apply nonempty_None in H. by rewrite H.
Qed.

(** X15: a condition filter is looked up with case ignored: "new",
    "like_new", "good" and "fair" are sent as the codes 1 to 4, any other
    text is sent exactly as the caller wrote it. *)
Theorem request_condition_code q (c : string) :
  condition q = Some c -> c <> "" ->
  exists v, build_params q !! "condition" = Some (PStr v)
    /\ ((str_lower c = "new" /\ v = "1")
        \/ (str_lower c = "like_new" /\ v = "2")
        \/ (str_lower c = "good" /\ v = "3")
        \/ (str_lower c = "fair" /\ v = "4")
        \/ (~ In (str_lower c) ["new"; "like_new"; "good"; "fair"] /\ v = c)).
Proof.
  intros Hc Hne. rewrite build_params_lookup. cbn [decide].
  rewrite (nonempty_Some _ _ Hc Hne). cbn [fmap option_fmap option_map].
  rewrite condition_map_lookup. eexists. split; [reflexivity|].
  destruct (decide (str_lower c = "new")); [by left|]. right.
  destruct (decide (str_lower c = "like_new")); [by left|]. right.
  destruct (decide (str_lower c = "good")); [by left|]. right.
  destruct (decide (str_lower c = "fair")); [by left|]. right.
  split; [|reflexivity]. simpl. intuition congruence.
Qed.

Lemma request_condition_code_witness :
  let q := {| keywords := "switch"; category := None; condition := Some "Like_New";
              min_price := None; max_price := None; include_sold := true |} in
  exists v, build_params q !! "condition" = Some (PStr v)
    /\ ((str_lower "Like_New" = "new" /\ v = "1")
        \/ (str_lower "Like_New" = "like_new" /\ v = "2")
        \/ (str_lower "Like_New" = "good" /\ v = "3")
        \/ (str_lower "Like_New" = "fair" /\ v = "4")
        \/ (~ In (str_lower "Like_New") ["new"; "like_new"; "good"; "fair"]
            /\ v = "Like_New")).
Proof.
  intros q. apply (request_condition_code q "Like_New"); [reflexivity | discriminate].
Defined.

(** X16: exactly two headers are sent, Authorization and Content-Type;
    Authorization is "Bearer " followed by the key when a non-empty key is
    configured and the empty text otherwise. *)
Theorem request_headers self :
  dom (build_headers self) = {[ "Authorization"; "Content-Type" ]}
  /\ build_headers self !! "Content-Type" = Some "application/json"
  /\ (forall k, api_key self = Some k -> k <> "" ->
        build_headers self !! "Authorization" = Some ("Bearer " +:+ k))
  /\ (api_key self = None \/ api_key self = Some "" ->
      build_headers self !! "Authorization" = Some "").
Proof.
  unfold build_headers. split; [|split; [|split]].
  - rewrite dom_insert_L, dom_singleton_L. reflexivity.
  - by simplify_map_eq.
  - intros k Hk Hne. rewrite (nonempty_Some _ _ Hk Hne). by simplify_map_eq.
  - intros H. apply nonempty_None in H. rewrite H. by simplify_map_eq.
Qed.

End Request.

(** ** What a search returns, lets through and logs *)

Section SearchOutcome.
Import MercariSearch.
Variable requests_get : string -> gmap string pyval -> gmap string string -> get_outcome.
Variable format : pyval -> string.
Implicit Types (self : client) (q : query) (d : gmap string pyval).

Lemma raise_for_status_ok (r : response) :
  ~ (400 <= status_code r < 600) -> raise_for_status r = Ok tt.
Proof.
  intros H. unfold raise_for_status.
  destruct (400 <=? status_code r) eqn:Hlo; [|reflexivity].
  destruct (status_code r <? 600) eqn:Hhi; [|reflexivity].
  apply Z.leb_le in Hlo. apply Z.ltb_lt in Hhi. lia.
Qed.

Lemma process_dict d :
  exists p : gmap string pyval,
    process format (PDict d) = Ok p
    /\ dom p = {[ "id"; "title"; "price"; "condition"; "url"; "is_sold" ]}
    /\ p !! "id" = Some (get d "id" PNone)
    /\ p !! "title" = Some (get d "name" PNone)
    /\ p !! "price" = Some (get d "price" PNone)
    /\ p !! "condition" = Some (get d "condition_description" PNone)
    /\ p !! "url" = Some (PStr ("https://mercari.com/item/" +:+ format (get d "id" PNone)))
    /\ (p !! "is_sold" = Some (PBool true) \/ p !! "is_sold" = Some (PBool false))
    /\ (p !! "is_sold" = Some (PBool true) <-> d !! "status" = Some (PStr "sold")).
Proof.
  eexists. split; [reflexivity|]. split; [reflexivity|].
  do 5 (split; [reflexivity|]).
  change (_ !! "is_sold") with
    (Some (PBool match get d "status" PNone with
                 | PStr s => String.eqb s "sold"
                 | _ => false
                 end)).
  unfold get. split.
  - destruct (d !! "status") as [[| | | |s| |]|]; cbn [default from_option id]; auto.
    destruct (String.eqb s "sold"); auto.
  - destruct (d !! "status") as [[| | | |s| |]|]; cbn [default from_option id];
      try (split; discriminate).
    destruct (String.eqb s "sold") eqn:E.
    + apply String.eqb_eq in E as ->. done.
    + apply String.eqb_neq in E. split; [discriminate|]. intros [= ->]. by destruct E.
Qed.

Lemma process_not_dict (v : pyval) :
  is_dict v = false -> process format v = Raise AttributeError.
Proof. destruct v; try reflexivity. discriminate. Qed.

(** The list comprehension keeps every item, in order, or fails as a whole. *)
Lemma process_all_dicts (ds : list (gmap string pyval)) :
  exists ps, process_all format (PDict <$> ds) = Ok ps
    /\ Forall2 (fun d p => process format (PDict d) = Ok p) ds ps.
Proof.
  induction ds as [|d ds (ps & Hps & Hall)].
  - exists []. split; [reflexivity | constructor].
  - destruct (process_dict d) as (p & Hp & _).
    exists (p :: ps). split.
    + cbn [fmap list_fmap process_all]. change (list_fmap _ _ PDict ds) with (PDict <$> ds).
      rewrite Hp, bind_Ok, Hps, bind_Ok. reflexivity.
    + by constructor.
Qed.

Lemma process_all_Ok (items : list pyval) (ps : list (gmap string pyval)) :
  process_all format items = Ok ps ->
  Forall (fun v => is_dict v = true) items /\ length ps = length items.
Proof.
  revert ps. induction items as [|v items IH]; intros ps H.
  - injection H as <-. split; [constructor | reflexivity].
  - cbn [process_all] in H. destruct v as [| | | | | |d]; try discriminate H.
    destruct (process_dict d) as (p & Hp & _). rewrite Hp, bind_Ok in H. destruct (process_all format items) as [ps'|] eqn:E;
      [|discriminate H].
    rewrite bind_Ok in H. injection H as <-. destruct (IH ps' eq_refl) as [Hd Hlen].
    split; [by constructor | simpl; by rewrite Hlen].
Qed.

Lemma process_all_Raise (items : list pyval) (e : exn) :
  process_all format items = Raise e ->
  e = AttributeError /\ Exists (fun v => is_dict v = false) items.
Proof.
  induction items as [|v items IH]; [discriminate|].
  cbn [process_all]. destruct (is_dict v) eqn:Ev.
  - destruct v as [| | | | | |d]; try discriminate Ev.
    destruct (process_dict d) as (p & Hp & _). rewrite Hp, bind_Ok.
    destruct (process_all format items) as [ps|e'] eqn:E.
    + rewrite bind_Ok. discriminate.
    + rewrite bind_Raise. intros [= <-]. destruct (IH eq_refl) as [-> Hex].
      split; [reflexivity | by apply Exists_cons_tl].
  - rewrite (process_not_dict v Ev), bind_Raise. intros [= <-].
    split; [reflexivity | by apply Exists_cons_hd].
Qed.

Lemma attempt_response self q (r : response) :
  requests_get (base_url self) (build_params q) (build_headers self) = GetReturns r ->
  ~ (400 <= status_code r < 600) ->
  attempt requests_get format self q
  = (body ← json r; results ← items_of body; items ← iterate results;
     process_all format items).
Proof.
  intros Hget Hstatus. unfold attempt. rewrite Hget, (raise_for_status_ok r Hstatus).
  reflexivity.
Qed.

(** X17: when the endpoint answers outside the 4xx and 5xx ranges with a
    JSON object whose [items] (an empty list when the key is absent) is a
    list of objects, the search returns one record per item, in the same
    order, whatever filters were asked for, and logs that count. *)
Theorem search_returns_every_item self q (r : response)
    (body : gmap string pyval) (ds : list (gmap string pyval)) :
  requests_get (base_url self) (build_params q) (build_headers self) = GetReturns r ->
  ~ (400 <= status_code r < 600) ->
  json r = Ok (PDict body) ->
  get body "items" (PList []) = PList (PDict <$> ds) ->
  exists results,
    search requests_get format self q = (Ok results, [LogInfo (length ds)])
    /\ Forall2 (fun d p =>
                  p !! "id" = Some (get d "id" PNone)
                  /\ p !! "title" = Some (get d "name" PNone)
                  /\ p !! "price" = Some (get d "price" PNone)
                  /\ p !! "condition" = Some (get d "condition_description" PNone))
         ds results.
Proof.
  intros Hget Hstatus Hjson Hitems.
  destruct (process_all_dicts ds) as (ps & Hps & Hall).
  exists ps. split.
  - unfold search. rewrite (attempt_response self q r Hget Hstatus), Hjson, bind_Ok.
    cbn [items_of]. rewrite bind_Ok, Hitems. cbn [iterate]. rewrite bind_Ok, Hps.
    by rewrite (Forall2_length _ _ _ Hall).
  - eapply Forall2_impl; [exact Hall|]. intros d p Hp. cbv beta in Hp.
    destruct (process_dict d) as (p' & Hp' & _ & Hid & Htitle & Hprice & Hcond & _).
    rewrite Hp in Hp'. injection Hp' as <-. by repeat split.
Qed.

(** X18: a result record has exactly the keys id, title, price,
    condition, url and is_sold; the url is the fixed item address followed by
    the id as formatted, and is_sold is a boolean, true exactly when the
    item's status is the text "sold". *)
Theorem processed_item_fields d :
  exists p : gmap string pyval,
    process format (PDict d) = Ok p
    /\ dom p = {[ "id"; "title"; "price"; "condition"; "url"; "is_sold" ]}
    /\ p !! "url" = Some (PStr ("https://mercari.com/item/" +:+ format (get d "id" PNone)))
    /\ (p !! "is_sold" = Some (PBool true) \/ p !! "is_sold" = Some (PBool false))
    /\ (p !! "is_sold" = Some (PBool true) <-> d !! "status" = Some (PStr "sold")).
Proof.
  destruct (process_dict d) as (p & Hp & Hdom & _ & _ & _ & _ & Hurl & Hbool & Hsold).
  exists p. split; [exact Hp|]. split; [exact Hdom|]. split; [exact Hurl|].
  split; [exact Hbool | exact Hsold].
Qed.

(** X19: results are all or nothing: if a single entry of [items] is not
    an object the search raises AttributeError, returns no record for the
    other entries and logs nothing. *)
Theorem search_one_bad_item_fails self q (r : response)
    (body : gmap string pyval) (items : list pyval) :
  requests_get (base_url self) (build_params q) (build_headers self) = GetReturns r ->
  ~ (400 <= status_code r < 600) ->
  json r = Ok (PDict body) ->
  get body "items" (PList []) = PList items ->
  Exists (fun v => is_dict v = false) items ->
  search requests_get format self q = (Raise AttributeError, []).
Proof.
  intros Hget Hstatus Hjson Hitems Hbad.
  unfold search. rewrite (attempt_response self q r Hget Hstatus), Hjson, bind_Ok.
  cbn [items_of]. rewrite bind_Ok, Hitems. cbn [iterate]. rewrite bind_Ok.
  destruct (process_all format items) as [ps|e] eqn:E.
  - apply process_all_Ok in E as [Hall _]. exfalso.
    apply Exists_exists in Hbad as (v & Hin & Hv). rewrite Forall_forall in Hall.
    specialize (Hall v Hin). congruence.
  - apply process_all_Raise in E as [-> _]. reflexivity.
Qed.

(** X20: when decoding the body raises, an exception of the [requests]
    family is logged and turned into the empty list, and any other exception
    leaves the search as it is, unlogged. *)
Theorem search_undecodable_body self q (r : response) (e : exn) :
  requests_get (base_url self) (build_params q) (build_headers self) = GetReturns r ->
  ~ (400 <= status_code r < 600) ->
  json r = Raise e ->
  search requests_get format self q
  = match e with
    | RequestException k => (Ok [], [LogError (RequestException k)])
    | _ => (Raise e, [])
    end.
Proof.
  intros Hget Hstatus Hjson.
  unfold search. rewrite (attempt_response self q r Hget Hstatus), Hjson, bind_Raise.
  by destruct e.
Qed.

(** X21: a decoded body of the wrong shape is not caught: a body that is
    not an object raises AttributeError, and an [items] value that is null, a
    boolean or a number raises TypeError; neither is logged. *)
Theorem search_wrong_shape self q (r : response) (body : pyval) :
  requests_get (base_url self) (build_params q) (build_headers self) = GetReturns r ->
  ~ (400 <= status_code r < 600) ->
  json r = Ok body ->
  (is_dict body = false ->
   search requests_get format self q = (Raise AttributeError, []))
  /\ (forall b : gmap string pyval,
        body = PDict b -> iterable (get b "items" (PList [])) = false ->
        search requests_get format self q = (Raise TypeError, [])).
Proof.
  intros Hget Hstatus Hjson.
  unfold search. rewrite (attempt_response self q r Hget Hstatus), Hjson, bind_Ok. split.
  - intros Hbody. by destruct body.
  - intros b -> Hiter. cbn [items_of]. rewrite bind_Ok.
    by destruct (get b "items" (PList [])).
Qed.

(** X22: no exception of the [requests] family ever leaves a search; a
    search that returns logs exactly one line, the count of the records
    returned or the error behind an empty list; a search that raises logs
    nothing. *)
Theorem search_log_discipline self q :
  (forall k, (search requests_get format self q).1 <> Raise (RequestException k))
  /\ (forall results,
        (search requests_get format self q).1 = Ok results ->
        (search requests_get format self q).2 = [LogInfo (length results)]
        \/ (results = []
            /\ exists k, (search requests_get format self q).2
                         = [LogError (RequestException k)]))
  /\ (forall e,
        (search requests_get format self q).1 = Raise e ->
        (search requests_get format self q).2 = []).
Proof.
  unfold search. destruct (attempt requests_get format self q) as [rs|e].
  - cbn [fst snd]. split; [discriminate|]. split; [|discriminate].
    intros results [= <-]. by left.
  - destruct e; cbn [fst snd]; (split; [discriminate|]); (split; [|done]);
      try discriminate.
    intros results [= <-]. right. split; [reflexivity|]. by eexists.
Qed.

End SearchOutcome.

(** ** Normalizing what a search returns *)

Section SearchThenNormalize.
Import MercariSearch MercariListingNormalizer.
Variable format : pyval -> string.
Implicit Types (d p r : gmap string pyval).

(** X23: a record produced by the search is accepted by the normalizer
    exactly when the item had a price that [float] accepts and a name and a
    condition description that are text; the canonical record then keeps the
    id, but its url is null (the normalizer reads [listing_url], the search
    writes [url]) and its description, shipping cost and seller fields are
    the defaults. *)
Theorem normalize_search_result d p :
  process format (PDict d) = Ok p ->
  ((exists r, normalize_listing p = Ok r)
   <-> coercible (get d "price" PNone)
       /\ (exists s, d !! "name" = Some (PStr s))
       /\ (exists s, d !! "condition_description" = Some (PStr s)))
  /\ (forall r, normalize_listing p = Ok r ->
        r !! "platform_id" = Some (get d "id" PNone)
        /\ r !! "url" = Some PNone
        /\ r !! "description" = Some (PStr "")
        /\ r !! "shipping_cost" = Some (PFloat (S754_zero false))
        /\ r !! "seller_info" = Some (PDict (extract_seller_info ∅))).
Proof.
  intros Hp. unfold process in Hp. injection Hp as <-.
  set (p := ({[ "id" := get d "id" PNone; "title" := get d "name" PNone;
                "price" := get d "price" PNone;
                "condition" := get d "condition_description" PNone;
                "url" := PStr ("https://mercari.com/item/" +:+ format (get d "id" PNone));
                "is_sold" := PBool match get d "status" PNone with
                                   | PStr s => String.eqb s "sold"
                                   | _ => false
                                   end ]} : gmap string pyval)).
  assert (Htext : forall key, (exists s, d !! key = Some (PStr s))
                              <-> exists s, get d key PNone = PStr s).
  { intros key. unfold get. destruct (d !! key) as [v|]; cbn [default from_option id].
    - split; intros [s H]; exists s; congruence.
    - split; intros [s H]; discriminate H. }
  split.
  - rewrite listing_returns_iff, !Htext.
    change (get p "price" (PInt 0)) with (get d "price" PNone).
    change (get p "shipping_cost" (PInt 0)) with (PInt 0).
    change (text_or_missing p "description") with true.
    change (text_or_missing p "condition")
      with (match get d "condition_description" PNone with PStr _ => true | _ => false end).
    change (text_or_missing p "title")
      with (match get d "name" PNone with PStr _ => true | _ => false end).
    split.
    + intros (Hprice & _ & Hc & Ht & _). split; [exact Hprice|]. split.
      * destruct (get d "name" PNone); try discriminate Ht. by eexists.
      * destruct (get d "condition_description" PNone); try discriminate Hc. by eexists.
    + intros (Hprice & [t ->] & [c ->]). split; [exact Hprice|].
      split; [by eexists|]. by repeat split.
  - intros r Hr. apply normalize_listing_Ok in Hr as (pr & c & b & sc & _ & _ & _ & Hsc & ->).
    change (get p "shipping_cost" (PInt 0)) with (PInt 0) in Hsc.
    injection Hsc as <-. by repeat split.
Qed.

End SearchThenNormalize.

Lemma normalize_search_result_witness :
  let d : gmap string pyval :=
    {[ "id" := PStr "m42"; "name" := PStr "Sony Walkman"; "price" := PInt 30;
       "condition_description" := PStr "Good"; "status" := PStr "on_sale" ]} in
  exists p r : gmap string pyval,
    MercariSearch.process (fun _ => "m42") (PDict d) = Ok p
    /\ MercariListingNormalizer.normalize_listing p = Ok r
    /\ r !! "platform_id" = Some (PStr "m42")
    /\ r !! "url" = Some PNone.
Proof.
  intros d. eexists. eexists. split; [reflexivity|]. split; [reflexivity|].
  pose proof (proj2 (normalize_search_result (fun _ => "m42") d _ eq_refl) _ eq_refl)
    as (Hid & Hurl & _).
  split; [exact Hid | exact Hurl].
Defined.

(** ** Concrete endpoints *)

Lemma search_returns_every_item_witness :
  let body : gmap string pyval :=
    {[ "items" := PList (PDict <$> [ {[ "id" := PStr "m1"; "name" := PStr "Switch" ]};
                                     {[ "id" := PStr "m2"; "status" := PStr "sold" ]} ]) ]} in
  let r := {| MercariSearch.status_code := 200; MercariSearch.json := Ok (PDict body) |} in
  let endpoint : string -> gmap string pyval -> gmap string string -> MercariSearch.get_outcome :=
    fun _ _ _ => MercariSearch.GetReturns r in
  let q := {| MercariSearch.keywords := "switch"; MercariSearch.category := None;
              MercariSearch.condition := None; MercariSearch.min_price := Some (PInt 100);
              MercariSearch.max_price := None; MercariSearch.include_sold := false |} in
  exists results,
    MercariSearch.search endpoint (fun _ => "") (MercariSearch.init None) q
    = (Ok results, [MercariSearch.LogInfo 2])
    /\ length results = 2%nat.
Proof.
  intros body r endpoint q.
  destruct (search_returns_every_item endpoint (fun _ => "") (MercariSearch.init None) q r body
              [ {[ "id" := PStr "m1"; "name" := PStr "Switch" ]};
                {[ "id" := PStr "m2"; "status" := PStr "sold" ]} ]
              eq_refl ltac:(simpl; lia) eq_refl eq_refl) as (results & Hs & Hall).
  exists results. split; [exact Hs|]. symmetry. exact (Forall2_length _ _ _ Hall).
Defined.

Lemma search_one_bad_item_fails_witness :
  let body : gmap string pyval :=
    {[ "items" := PList [PDict {[ "id" := PStr "m1" ]}; PStr "oops"] ]} in
  let r := {| MercariSearch.status_code := 200; MercariSearch.json := Ok (PDict body) |} in
  let endpoint : string -> gmap string pyval -> gmap string string -> MercariSearch.get_outcome :=
    fun _ _ _ => MercariSearch.GetReturns r in
  let q := {| MercariSearch.keywords := "switch"; MercariSearch.category := None;
              MercariSearch.condition := None; MercariSearch.min_price := None;
              MercariSearch.max_price := None; MercariSearch.include_sold := true |} in
  MercariSearch.search endpoint (fun _ => "") (MercariSearch.init None) q
  = (Raise AttributeError, []).
Proof.
  intros body r endpoint q.
  apply (search_one_bad_item_fails endpoint (fun _ => "") (MercariSearch.init None) q r body
           [PDict {[ "id" := PStr "m1" ]}; PStr "oops"]
           eq_refl ltac:(simpl; lia) eq_refl eq_refl).
  apply Exists_cons_tl, Exists_cons_hd. reflexivity.
Defined.

Lemma search_undecodable_body_witness :
  let r := {| MercariSearch.status_code := 204;
              MercariSearch.json := Raise (RequestException InvalidJSONError) |} in
  let endpoint : string -> gmap string pyval -> gmap string string -> MercariSearch.get_outcome :=
    fun _ _ _ => MercariSearch.GetReturns r in
  let q := {| MercariSearch.keywords := "switch"; MercariSearch.category := None;
              MercariSearch.condition := None; MercariSearch.min_price := None;
              MercariSearch.max_price := None; MercariSearch.include_sold := true |} in
  MercariSearch.search endpoint (fun _ => "") (MercariSearch.init None) q
  = (Ok [], [MercariSearch.LogError (RequestException InvalidJSONError)]).
Proof.
  intros r endpoint q.
  exact (search_undecodable_body endpoint (fun _ => "") (MercariSearch.init None) q r
           (RequestException InvalidJSONError) eq_refl ltac:(simpl; lia) eq_refl).
Defined.

Lemma search_wrong_shape_witness :
  let r := {| MercariSearch.status_code := 200;
              MercariSearch.json := Ok (PList []) |} in
  let endpoint : string -> gmap string pyval -> gmap string string -> MercariSearch.get_outcome :=
    fun _ _ _ => MercariSearch.GetReturns r in
  let q := {| MercariSearch.keywords := "switch"; MercariSearch.category := None;
              MercariSearch.condition := None; MercariSearch.min_price := None;
              MercariSearch.max_price := None; MercariSearch.include_sold := true |} in
  MercariSearch.search endpoint (fun _ => "") (MercariSearch.init None) q
  = (Raise AttributeError, []).
Proof.
  intros r endpoint q.
  exact (proj1 (search_wrong_shape endpoint (fun _ => "") (MercariSearch.init None) q r
                  (PList []) eq_refl ltac:(simpl; lia) eq_refl) eq_refl).
Defined.

(** ** Keys the normalizer does not read *)

Section Frame.
Import MercariListingNormalizer.

(** X24: a key of the raw record other than the fifteen the normalizer
    looks up has no influence: adding, changing or removing it leaves the
    outcome, record or exception, the same. *)
Theorem normalize_listing_ignores_other_keys (raw : gmap string pyval)
    (key : string) (v : pyval) :
  ~ In key read_keys ->
  normalize_listing (<[ key := v ]> raw) = normalize_listing raw
  /\ normalize_listing (delete key raw) = normalize_listing raw.
Proof.
  intros Hkey. split; apply normalize_listing_reads, Forall_forall; intros k Hk.
  - apply lookup_insert_ne. intros <-. apply Hkey, list_elem_of_In, Hk.
  - apply lookup_delete_ne. intros <-. apply Hkey, list_elem_of_In, Hk.
Qed.

Lemma normalize_listing_ignores_other_keys_witness :
  let raw : gmap string pyval := {[ "title" := PStr "Adidas shoes"; "price" := PInt 40 ]} in
  ~ In "is_sold" read_keys
  /\ normalize_listing (<[ "is_sold" := PBool true ]> raw) = normalize_listing raw.
Proof.
  intros raw.
  assert (H : ~ In "is_sold" read_keys).
  { unfold read_keys. simpl. intuition discriminate. }
  split; [exact H|].
  exact (proj1 (normalize_listing_ignores_other_keys raw "is_sold" (PBool true) H)).
Defined.

End Frame.
